(** * Kafka Hook dispatch core

    A shallow embedding of
    [bulkwebhook/bulk_webhook/doctype/kafka_hook/kafka_hook.py]:
    the [KafkaHook] controller (validation and cache eviction), the
    registry cache ([generate_kafkahook], [fetch_webhooks_from_redis]),
    the event matcher ([run_webhooks]) and the worker entry point
    ([run_kafka_hook], [_run_kafka_hook], [get_webhook_data]).

    Python code that raises is a computation in a state-and-exception
    monad over a [World]; a raise keeps the state reached so far, as
    in-place mutation does in Python.  The framework ([frappe]), the
    template engine, [json], the broker client and the audit log are
    collaborators of the module: they are the fields of an [Env]. *)

From Stdlib Require Import Ascii.
From stdpp Require Import base strings list gmap fin_maps.

Local Open Scope string_scope.
Local Open Scope list_scope.
Set Warnings "-register-all,-clear-no-such-hyp".

(** ** Python values *)

Inductive value : Type :=
  | VNone
  | VBool (b : bool)
  | VInt (z : Z)
  | VStr (s : string)
  | VList (l : list value)
  | VDict (kv : list (string * value))
  | VObj (attrs : list (string * value)).

(** Truth value of an object, as [if x:] and [not x] test it. *)
Definition truthy (v : value) : bool :=
  match v with
  | VNone => false
  | VBool b => b
  | VInt z => negb (Z.eqb z 0)
  | VStr s => negb (bool_decide (s = EmptyString))
  | VList l => match l with [] => false | _ => true end
  | VDict kv => match kv with [] => false | _ => true end
  | VObj _ => true
  end.

(** A string field is false when unset or empty. *)
Definition truthy_str (s : string) : bool := negb (bool_decide (s = EmptyString)).

Fixpoint assoc (k : string) (kv : list (string * value)) : option value :=
  match kv with
  | [] => None
  | (k', v) :: rest => if bool_decide (k' = k) then Some v else assoc k rest
  end.

(** ** Exceptions and results *)

Record exn := Exn { exn_kind : string; exn_msg : string }.

Inductive result (A : Type) : Type :=
  | Ok (a : A)
  | Raise (e : exn).
Arguments Ok {A} a.
Arguments Raise {A} e.

(** ** Documents, hook definitions, registry rows *)

Module Document.
Record t := Make {
  doctype : string;
  name : string;
  in_insert : bool;                       (* doc.flags.in_insert *)
  fields : list (string * value)
}.
End Document.

(** A persisted Kafka Hook definition (the fields the module reads). *)
Record KafkaHook := {
  name : string;
  enabled : bool;
  webhook_doctype : string;
  webhook_docevent : string;
  condition : string;
  process_data : string;
  webhook_method : string;
  webhook_json : string;
  kafka_settings : string;
  kafka_topic : string
}.

(** A row of [frappe.get_all("Kafka Hook", fields=[name, condition,
    webhook_docevent, webhook_doctype])]. *)
Module HookRow.
Record t := Make {
  name : string;
  condition : string;
  webhook_docevent : string;
  webhook_doctype : string
}.
End HookRow.

Definition row_of (h : KafkaHook) : HookRow.t :=
  HookRow.Make (name h) (condition h) (webhook_docevent h) (webhook_doctype h).

(** The argument [doc_list] of [run_kafka_hook]: absent, a single name
    or a list of names. *)
Inductive doc_list_arg :=
  | DLNone
  | DLStr (s : string)
  | DLList (l : list string).

(** One call of [frappe.enqueue(run_kafka_hook, enqueue_after_commit=True,
    doc=doc, kafka_hook_name=webhook.name)]. *)
Record Task := {
  task_doc : Document.t;
  task_kafka_hook_name : string;
  task_after_commit : bool
}.

(** ** The world the module acts on *)

(** The two call shapes of [frappe.log_error] in the module. *)
Inductive error_entry :=
  | LogArgs (a1 a2 : string)      (* frappe.log_error(str(e), traceback) *)
  | LogTitle (title : string).    (* frappe.log_error(title=...) *)

(** One call of [log_request(topic, settings, data, response)]. *)
Record request_entry := {
  req_topic : string;
  req_settings : string;
  req_data : value;
  req_response : value
}.

(** One call of [send_kafka(settings, topic, key, data, proto_obj,
    is_protobuf_obj)]. *)
Record kafka_call := {
  kc_settings : string;
  kc_topic : string;
  kc_key : value;
  kc_data : value;
  kc_proto_obj : value;
  kc_is_protobuf_obj : value
}.

(** [frappe.flags], as far as the module reads and writes it. *)
Record Flags := {
  in_import : bool;
  in_patch : bool;
  in_install : bool;
  in_migrate : bool;
  kafkahook_executed : option (gmap string (list string));
  kafkahook : option (gmap string (list HookRow.t))
}.

Record World := {
  flags : Flags;
  cache : gmap string (gmap string (list HookRow.t));   (* frappe.cache() *)
  store : list KafkaHook;              (* persisted definitions, query order *)
  store_queries : nat;                 (* number of frappe.get_all calls *)
  queue : list Task;                   (* frappe.enqueue calls *)
  error_log : list error_entry;        (* frappe.log_error calls *)
  request_log : list request_entry;    (* log_request calls *)
  kafka_calls : list kafka_call        (* send_kafka calls *)
}.

Definition set_flags (f : Flags) (w : World) : World :=
  {| flags := f; cache := cache w; store := store w;
     store_queries := store_queries w; queue := queue w;
     error_log := error_log w; request_log := request_log w;
     kafka_calls := kafka_calls w |}.

Definition set_cache (c : gmap string (gmap string (list HookRow.t))) (w : World) : World :=
  {| flags := flags w; cache := c; store := store w;
     store_queries := store_queries w; queue := queue w;
     error_log := error_log w; request_log := request_log w;
     kafka_calls := kafka_calls w |}.

Definition set_store (st : list KafkaHook) (w : World) : World :=
  {| flags := flags w; cache := cache w; store := st;
     store_queries := store_queries w; queue := queue w;
     error_log := error_log w; request_log := request_log w;
     kafka_calls := kafka_calls w |}.

Definition set_store_queries (n : nat) (w : World) : World :=
  {| flags := flags w; cache := cache w; store := store w;
     store_queries := n; queue := queue w;
     error_log := error_log w; request_log := request_log w;
     kafka_calls := kafka_calls w |}.

Definition set_queue (q : list Task) (w : World) : World :=
  {| flags := flags w; cache := cache w; store := store w;
     store_queries := store_queries w; queue := q;
     error_log := error_log w; request_log := request_log w;
     kafka_calls := kafka_calls w |}.

Definition set_error_log (l : list error_entry) (w : World) : World :=
  {| flags := flags w; cache := cache w; store := store w;
     store_queries := store_queries w; queue := queue w;
     error_log := l; request_log := request_log w;
     kafka_calls := kafka_calls w |}.

Definition set_request_log (l : list request_entry) (w : World) : World :=
  {| flags := flags w; cache := cache w; store := store w;
     store_queries := store_queries w; queue := queue w;
     error_log := error_log w; request_log := l;
     kafka_calls := kafka_calls w |}.

Definition set_kafka_calls (l : list kafka_call) (w : World) : World :=
  {| flags := flags w; cache := cache w; store := store w;
     store_queries := store_queries w; queue := queue w;
     error_log := error_log w; request_log := request_log w;
     kafka_calls := l |}.

Definition set_kafkahook_executed (e : option (gmap string (list string)))
    (f : Flags) : Flags :=
  {| in_import := in_import f; in_patch := in_patch f;
     in_install := in_install f; in_migrate := in_migrate f;
     kafkahook_executed := e; kafkahook := kafkahook f |}.

Definition set_kafkahook (r : option (gmap string (list HookRow.t)))
    (f : Flags) : Flags :=
  {| in_import := in_import f; in_patch := in_patch f;
     in_install := in_install f; in_migrate := in_migrate f;
     kafkahook_executed := kafkahook_executed f; kafkahook := r |}.

(** ** The monad: state threaded through, exceptions as results *)

Definition M (A : Type) : Type := World -> World * result A.

Definition ret {A} (a : A) : M A := fun w => (w, Ok a).

Definition raise {A} (e : exn) : M A := fun w => (w, Raise e).

Definition bind {A B} (m : M A) (k : A -> M B) : M B :=
  fun w =>
    match m w with
    | (w', Ok a) => k a w'
    | (w', Raise e) => (w', Raise e)
    end.

(** [try: m except Exception as e: h e] *)
Definition try_except {A} (m : M A) (h : exn -> M A) : M A :=
  fun w =>
    match m w with
    | (w', Ok a) => (w', Ok a)
    | (w', Raise e) => h e w'
    end.

(** Lift a result computed by a collaborator that leaves the world alone. *)
Definition lift {A} (r : result A) : M A := fun w => (w, r).

Definition get_world : M World := fun w => (w, Ok w).

Definition modify (f : World -> World) : M unit := fun w => (f w, Ok tt).

Notation "'do' x <- m ; k" := (bind m (fun x => k))
  (at level 10, x name, m at level 100, k at level 200, only parsing).

(** [for x in l: body x] *)
Fixpoint for_each {A} (body : A -> M unit) (l : list A) : M unit :=
  match l with
  | [] => ret tt
  | x :: rest => do _ <- body x; for_each body rest
  end.

(** ** Collaborators *)

(** Values bound in an evaluation or rendering context. *)
Inductive ctx_value :=
  | CUtils                                  (* get_safe_frappe_utils() *)
  | CDocument (d : Document.t)              (* a live document *)
  | CMap (m : list (string * value)).       (* doc.as_dict(...) *)

Definition context := list (string * ctx_value).

(** What the module calls and does not define.  A collaborator answers
    from its arguments; what the module itself writes (logs, queue,
    cache, flags) is in the [World]. *)
Record Env := {
  (* bool(frappe.request) *)
  request : bool;
  (* frappe.get_cached_doc("Kafka Hook", name) *)
  get_cached_doc : string -> result KafkaHook;
  (* frappe.get_doc(doctype, name) *)
  get_doc : string -> string -> result Document.t;
  (* frappe.get_attr(method_string)(doc) *)
  get_attr : string -> result (Document.t -> result (gmap string value));
  (* doc.as_dict(convert_dates_to_str=True) *)
  as_dict : Document.t -> list (string * value);
  (* frappe.render_template(template, context=...) *)
  render_template : string -> context -> result string;
  (* json.loads(text) *)
  json_loads : string -> result value;
  (* frappe.safe_eval(expression, eval_locals=...) *)
  safe_eval : string -> context -> result value;
  (* send_kafka(settings, topic, key, data, proto_obj, is_protobuf_obj) *)
  send_kafka : string -> string -> value -> value -> value -> value ->
               result value;
  (* str(r) *)
  str : value -> string;
  (* frappe.get_traceback() while handling e *)
  get_traceback : exn -> string;
  (* frappe.get_value("DocType", doctype, "is_submittable") *)
  get_is_submittable : string -> value;
  (* frappe.new_doc(doctype) *)
  new_doc : string -> result Document.t;
  (* frappe.utils.jinja.validate_template(template) *)
  validate_template : string -> result unit
}.

(** [WEBHOOK_CONTEXT = {"utils": get_safe_frappe_utils()}] *)
Definition WEBHOOK_CONTEXT : context := [("utils", CUtils)].

(** [{**WEBHOOK_CONTEXT, "doc": x}] *)
Definition context_with_doc (x : ctx_value) : context :=
  WEBHOOK_CONTEXT ++ [("doc", x)].

(** [frappe.throw(msg)] *)
Definition throw {A} (msg : string) : M A :=
  raise (Exn "ValidationError" msg).

(** [frappe.log_error(...)]: appends to the error log. *)
Definition log_error (e : error_entry) : M unit :=
  modify (fun w => set_error_log (error_log w ++ [e]) w).

(** [log_request(topic, settings, data, response)]: appends an audit
    record (section 6 of the specification: [record] does not raise). *)
Definition log_request (topic settings : string) (data response : value)
    : M unit :=
  modify (fun w =>
    set_request_log
      (request_log w ++ [{| req_topic := topic; req_settings := settings;
                            req_data := data; req_response := response |}]) w).

(** [d.get(k)] on a dict. *)
Definition dict_get (d : gmap string value) (k : string) : value :=
  default VNone (d !! k).

(** [x.id]: the attribute of an object, [AttributeError] otherwise. *)
Definition getattr_id (x : value) : result value :=
  match x with
  | VObj attrs =>
      match assoc "id" attrs with
      | Some v => Ok v
      | None => Raise (Exn "AttributeError" "object has no attribute 'id'")
      end
  | _ => Raise (Exn "AttributeError" "object has no attribute 'id'")
  end.

Section Code.

Variable env : Env.

(** *** class KafkaHook(Document) *)

Definition on_update (self : KafkaHook) : M unit :=
  modify (fun w => set_cache (delete "kafkahook" (cache w)) w).

Definition on_trash (self : KafkaHook) : M unit :=
  modify (fun w => set_cache (delete "kafkahook" (cache w)) w).

Definition validate_docevent (self : KafkaHook) : M unit :=
  if truthy_str (webhook_doctype self) then
    let is_submittable := get_is_submittable env (webhook_doctype self) in
    if negb (truthy is_submittable)
       && bool_decide (webhook_docevent self ∈
                         ["on_submit"; "on_cancel"; "on_update_after_submit"])
    then throw "DocType must be Submittable for the selected Doc Event"
    else ret tt
  else ret tt.

Definition validate_condition (self : KafkaHook) : M unit :=
  do temp_doc <- lift (new_doc env (webhook_doctype self));
  if truthy_str (condition self) then
    try_except
      (do _ <- lift (safe_eval env (condition self)
                       (context_with_doc (CDocument temp_doc)));
       ret tt)
      (fun e => throw (exn_msg e))
  else ret tt.

Definition validate_request_body (self : KafkaHook) : M unit :=
  lift (validate_template env (webhook_json self)).

Definition validate (self : KafkaHook) : M unit :=
  do _ <- validate_docevent self;
  do _ <- validate_condition self;
  validate_request_body self.

(** *** get_webhook_data *)

Definition get_webhook_data (doc : Document.t) (kafka_hook : KafkaHook)
    : M (gmap string value) :=
  if bool_decide (process_data kafka_hook = "Method") then
    do f <- lift (get_attr env (webhook_method kafka_hook));
    lift (f doc)
  else
    let doc' := as_dict env doc in
    do data <- lift (render_template env (webhook_json kafka_hook)
                       (context_with_doc (CMap doc')));
    do data <- lift (json_loads env data);
    ret (<["data" := data]> (<["proto_obj" := VNone]> ∅)).

(** *** _run_kafka_hook *)

(** The call of [send_kafka]: the arguments are recorded, the broker
    answers or raises. *)
Definition call_send_kafka (settings topic : string)
    (key data proto_obj is_protobuf_obj : value) : M value :=
  do _ <- modify (fun w =>
    set_kafka_calls
      (kafka_calls w ++ [{| kc_settings := settings; kc_topic := topic;
                            kc_key := key; kc_data := data;
                            kc_proto_obj := proto_obj;
                            kc_is_protobuf_obj := is_protobuf_obj |}]) w);
  lift (send_kafka env settings topic key data proto_obj is_protobuf_obj).

(** Lines 95 to 99: the message key and the [is_protobuf_obj] flag. *)
Definition partition_key (hook : KafkaHook) (data : gmap string value)
    : M (value * value) :=
  if bool_decide (process_data hook = "Method")
     && truthy_str (webhook_method hook)
  then do key <- lift (getattr_id (dict_get data "data"));
       ret (key, VBool true)
  else ret (VNone, VNone).

(** Lines 101 to 120: the [try] around the send and its handler.  Only
    [send_kafka] raises in the [try] block, so [r] is still [None] when
    the handler runs. *)
Definition send_and_log (hook : KafkaHook) (data : gmap string value)
    (key is_protobuf_obj : value) : M unit :=
  try_except
    (do r <- call_send_kafka (kafka_settings hook) (kafka_topic hook) key
               (dict_get data "data") (dict_get data "proto_obj")
               is_protobuf_obj;
     log_request (kafka_topic hook) (kafka_settings hook)
       (dict_get data "data") (VStr (str env r)))
    (fun e =>
       do _ <- log_error (LogArgs (exn_msg e) (get_traceback env e));
       log_request ("Error: " +:+ kafka_topic hook) (kafka_settings hook)
         (dict_get data "data") VNone).

Definition _run_kafka_hook (hook : KafkaHook) (doc : Document.t) : M unit :=
  do data <- get_webhook_data doc hook;
  do key_flag <- partition_key hook data;
  send_and_log hook data (fst key_flag) (snd key_flag).

(** *** run_kafka_hook *)

(** Lines 82 to 90: the loop over the names of the batch. *)
Definition run_doc_list (hook : KafkaHook) (is_from_request : bool)
    (doctype : string) (doc_list : list string) : M unit :=
  for_each (fun doc_name =>
    try_except
      (do doc <- lift (get_doc env doctype doc_name);
       _run_kafka_hook hook doc)
      (fun e =>
         if is_from_request then raise e
         else log_error (LogTitle "Error running Kafka Hook")))
    doc_list.

Definition run_kafka_hook (kafka_hook_name : string)
    (doc : option Document.t) (doctype : string) (doc_list : doc_list_arg)
    : M unit :=
  do hook <- lift (get_cached_doc env kafka_hook_name);
  let is_from_request := request env in
  match doc with
  | Some doc => _run_kafka_hook hook doc
  | None =>
      match doc_list with
      | DLNone => raise (Exn "TypeError" "'NoneType' object is not iterable")
      | DLStr doc_name => run_doc_list hook is_from_request doctype [doc_name]
      | DLList doc_list => run_doc_list hook is_from_request doctype doc_list
      end
  end.

(** *** generate_kafkahook, fetch_webhooks_from_redis *)

(** [frappe.get_all("Kafka Hook", fields=[...], filters={"enabled": True})]:
    one query of the store, the enabled definitions in store order,
    projected on the four fields. *)
Definition get_all_enabled : M (list HookRow.t) :=
  fun w => (set_store_queries (S (store_queries w)) w,
            Ok (row_of <$> List.filter enabled (store w))).

(** [webhooks.setdefault(w.webhook_doctype, []).append(w)] *)
Definition setdefault_append (webhooks : gmap string (list HookRow.t)) (w : HookRow.t)
    : gmap string (list HookRow.t) :=
  <[HookRow.webhook_doctype w :=
      default [] (webhooks !! HookRow.webhook_doctype w) ++ [w]]> webhooks.

Definition generate_kafkahook : M (gmap string (list HookRow.t)) :=
  do webhooks_list <- get_all_enabled;
  ret (foldl setdefault_append ∅ webhooks_list).

(** [frappe.cache().get_value(key, generator=g)]: the cached value, or
    on a miss the generated value, which is stored under the key. *)
Definition cache_get_value (key : string)
    (generator : M (gmap string (list HookRow.t)))
    : M (gmap string (list HookRow.t)) :=
  do w <- get_world;
  match cache w !! key with
  | Some val => ret val
  | None =>
      do val <- generator;
      do _ <- modify (fun w => set_cache (<[key := val]> (cache w)) w);
      ret val
  end.

Definition fetch_webhooks_from_redis : M (gmap string (list HookRow.t)) :=
  cache_get_value "kafkahook" generate_kafkahook.

(** *** run_webhooks *)

Definition event_list (in_insert : bool) : gset string :=
  let event_list : gset string :=
    {["on_update"; "after_insert"; "on_submit"; "on_cancel"; "on_trash"]} in
  if negb in_insert
  then event_list ∪ list_to_set ["on_change"; "before_update_after_submit"]
  else event_list.

(** [frappe.flags.kafkahook_executed], which [run_webhooks] has set to a
    dict before the loop reads it. *)
Definition read_executed : M (gmap string (list string)) :=
  do w <- get_world;
  match kafkahook_executed (flags w) with
  | Some executed => ret executed
  | None => raise (Exn "AttributeError" "'NoneType' object has no attribute 'get'")
  end.

Definition enqueue (doc : Document.t) (kafka_hook_name : string) : M unit :=
  modify (fun w =>
    set_queue (queue w ++ [{| task_doc := doc;
                              task_kafka_hook_name := kafka_hook_name;
                              task_after_commit := true |}]) w).

(** [frappe.flags.kafkahook_executed.setdefault(doc_name, []).append(hook_name)] *)
Definition record_executed (doc_name hook_name : string) : M unit :=
  do executed <- read_executed;
  modify (fun w =>
    set_flags
      (set_kafkahook_executed
         (Some (<[doc_name := default [] (executed !! doc_name) ++ [hook_name]]>
                  executed))
         (flags w)) w).

(** The body of [for webhook in webhooks_for_doc]. *)
Definition webhook_body (doc : Document.t) (method : string)
    (webhook : HookRow.t) : M unit :=
  if negb (bool_decide (HookRow.webhook_docevent webhook = method)) then ret tt
  else
    do executed <- read_executed;
    if bool_decide (HookRow.name webhook ∈ default [] (executed !! Document.name doc))
    then ret tt
    else
      do trigger_webhook <-
        (if negb (truthy_str (HookRow.condition webhook)) then ret true
         else
           do v <- lift (safe_eval env (HookRow.condition webhook)
                           (context_with_doc (CDocument doc)));
           ret (truthy v));
      if negb trigger_webhook then ret tt
      else
        do _ <- enqueue doc (HookRow.name webhook);
        record_executed (Document.name doc) (HookRow.name webhook).

Definition run_webhooks (doc : Document.t) (method : string) : M unit :=
  do w <- get_world;
  if in_import (flags w) || in_patch (flags w) || in_install (flags w)
     || in_migrate (flags w)
  then ret tt
  else
    if negb (bool_decide (method ∈ event_list (Document.in_insert doc)))
    then ret tt
    else
      do _ <- (do w <- get_world;
               match kafkahook_executed (flags w) with
               | None =>
                   modify (fun w =>
                     set_flags (set_kafkahook_executed (Some ∅) (flags w)) w)
               | Some _ => ret tt
               end);
      do _ <- (do w <- get_world;
               match kafkahook (flags w) with
               | None =>
                   do r <- fetch_webhooks_from_redis;
                   modify (fun w =>
                     set_flags (set_kafkahook (Some r) (flags w)) w)
               | Some _ => ret tt
               end);
      do w <- get_world;
      match kafkahook (flags w) with
      | None => raise (Exn "AttributeError"
                         "'NoneType' object has no attribute 'get'")
      | Some registry =>
          match registry !! Document.doctype doc with
          | None | Some [] => ret tt
          | Some webhooks_for_doc =>
              for_each (webhook_body doc method) webhooks_for_doc
          end
      end.

(** *** The record store around the controller

    [frappe.model.document] is outside the module.  Its contract, as
    section 3 and section 7 of the specification give it: a definition
    is validated before it is written, an insert or a save is followed
    by [on_update], a delete is preceded by [on_trash]. *)

Definition replace_by_name (h : KafkaHook) (st : list KafkaHook)
    : list KafkaHook :=
  (fun h' => if bool_decide (name h' = name h) then h else h') <$> st.

Definition remove_by_name (n : string) (st : list KafkaHook)
    : list KafkaHook :=
  List.filter (fun h' => negb (bool_decide (name h' = n))) st.

Definition insert_definition (h : KafkaHook) : M unit :=
  do _ <- validate h;
  do _ <- modify (fun w => set_store (store w ++ [h]) w);
  on_update h.

Definition save_definition (h : KafkaHook) : M unit :=
  do _ <- validate h;
  do _ <- modify (fun w => set_store (replace_by_name h (store w)) w);
  on_update h.

Definition delete_definition (h : KafkaHook) : M unit :=
  do _ <- on_trash h;
  modify (fun w => set_store (remove_by_name (name h) (store w)) w).

(** *** A unit of work

    What happens between the creation of [frappe.flags] and its end:
    lifecycle events of documents, and writes of definitions.  A raise
    ends a step; the steps after it still run here, so that every
    prefix of a unit is covered. *)
Inductive unit_step :=
  | DocEvent (doc : Document.t) (method : string)
  | InsertDefinition (h : KafkaHook)
  | SaveDefinition (h : KafkaHook)
  | DeleteDefinition (h : KafkaHook).

Definition run_step (s : unit_step) : M unit :=
  match s with
  | DocEvent doc method => run_webhooks doc method
  | InsertDefinition h => insert_definition h
  | SaveDefinition h => save_definition h
  | DeleteDefinition h => delete_definition h
  end.

Fixpoint run_unit (steps : list unit_step) (w : World) : World :=
  match steps with
  | [] => w
  | s :: rest => run_unit rest (fst (run_step s w))
  end.

End Code.

(** ** A small concrete environment

    Stand-ins for the collaborators, enough to run the module on
    concrete inputs: a renderer for [{{ doc.field }}] placeholders, a
    reader for a subset of JSON, an evaluator for conditions of the
    form [doc.field == "literal"], a broker that is down for one topic. *)

Module Demo.

(** The double-quote character and a quoted word. *)
Definition dq : string :=
  String (Ascii.Ascii false true false false false true false false)
         EmptyString.
Definition quoted (s : string) : string := dq +:+ s +:+ dq.

Definition after (n : nat) (s : string) : string :=
  String.substring n (String.length s - n) s.

Definition text_of (v : option value) : string :=
  match v with
  | Some (VStr s) => s
  | Some VNone => "None"
  | Some (VBool true) => "True"
  | Some (VBool false) => "False"
  | _ => EmptyString
  end.

(** Replace every [{{ doc.field }}] by the field of [doc]. *)
Fixpoint render (fuel : nat) (doc : list (string * value)) (s : string)
    : string :=
  match fuel with
  | O => s
  | S fuel =>
      match String.index 0 "{{ doc." s with
      | None => s
      | Some i =>
          let rest := after (i + 7) s in
          match String.index 0 " }}" rest with
          | None => s
          | Some j =>
              String.substring 0 i s
              +:+ text_of (assoc (String.substring 0 j rest) doc)
              +:+ render fuel doc (after (j + 3) rest)
          end
      end
  end.

(** The value a context binds to a name (the last binding wins). *)
Fixpoint lookup_name (k : string) (ctx : context) : option ctx_value :=
  match ctx with
  | [] => None
  | (k', x) :: rest =>
      match lookup_name k rest with
      | Some y => Some y
      | None => if bool_decide (k' = k) then Some x else None
      end
  end.

Definition render_template (template : string) (ctx : context)
    : result string :=
  match lookup_name "doc" ctx with
  | Some (CMap doc) => Ok (render (String.length template) doc template)
  | _ => Raise (Exn "UndefinedError" "'doc' is undefined")
  end.

(** A reader for JSON objects, arrays, strings without escapes,
    integers, [true], [false] and [null]. *)
Definition is_ws (c : ascii) : bool :=
  bool_decide (c = " "%char) || bool_decide (c = "010"%char).

Fixpoint skip_ws (l : list ascii) : list ascii :=
  match l with
  | c :: rest => if is_ws c then skip_ws rest else l
  | [] => []
  end.

Definition is_digit (c : ascii) : bool :=
  let n := Ascii.nat_of_ascii c in (48 <=? n)%nat && (n <=? 57)%nat.

Fixpoint read_digits (l : list ascii) (acc : Z) : Z * list ascii :=
  match l with
  | c :: rest =>
      if is_digit c
      then read_digits rest (acc * 10 + Z.of_nat (Ascii.nat_of_ascii c - 48))%Z
      else (acc, l)
  | [] => (acc, [])
  end.

Fixpoint read_string (l : list ascii) (acc : string)
    : option (string * list ascii) :=
  match l with
  | c :: rest =>
      if bool_decide (String c EmptyString = dq) then Some (acc, rest)
      else read_string rest (acc +:+ String c EmptyString)
  | [] => None
  end.

Definition expect (word : string) (v : value) (l : list ascii)
    : option (value * list ascii) :=
  let n := String.length word in
  if bool_decide (take n l = String.list_ascii_of_string word)
  then Some (v, drop n l) else None.

Fixpoint read_value (fuel : nat) (l : list ascii)
    : option (value * list ascii) :=
  match fuel with
  | O => None
  | S fuel =>
      let read_items :=
        fix read_items (n : nat) (l : list ascii) (acc : list value)
            : option (list value * list ascii) :=
          match n with
          | O => None
          | S n =>
              match read_value fuel l with
              | None => None
              | Some (v, l) =>
                  match skip_ws l with
                  | ","%char :: l => read_items n l (acc ++ [v])
                  | "]"%char :: l => Some (acc ++ [v], l)
                  | _ => None
                  end
              end
          end in
      let read_members :=
        fix read_members (n : nat) (l : list ascii)
            (acc : list (string * value))
            : option (list (string * value) * list ascii) :=
          match n with
          | O => None
          | S n =>
              match skip_ws l with
              | c :: l =>
                  if bool_decide (String c EmptyString = dq) then
                    match read_string l EmptyString with
                    | None => None
                    | Some (k, l) =>
                        match skip_ws l with
                        | ":"%char :: l =>
                            match read_value fuel l with
                            | None => None
                            | Some (v, l) =>
                                match skip_ws l with
                                | ","%char :: l =>
                                    read_members n l (acc ++ [(k, v)])
                                | "}"%char :: l => Some (acc ++ [(k, v)], l)
                                | _ => None
                                end
                            end
                        | _ => None
                        end
                    end
                  else None
              | [] => None
              end
          end in
      match skip_ws l with
      | [] => None
      | c :: rest =>
          if bool_decide (String c EmptyString = dq) then
            match read_string rest EmptyString with
            | Some (s, l) => Some (VStr s, l)
            | None => None
            end
          else if bool_decide (c = "{"%char) then
            match skip_ws rest with
            | "}"%char :: l => Some (VDict [], l)
            | _ =>
                match read_members fuel rest [] with
                | Some (kv, l) => Some (VDict kv, l)
                | None => None
                end
            end
          else if bool_decide (c = "["%char) then
            match skip_ws rest with
            | "]"%char :: l => Some (VList [], l)
            | _ =>
                match read_items fuel rest [] with
                | Some (vs, l) => Some (VList vs, l)
                | None => None
                end
            end
          else if bool_decide (c = "-"%char) then
            match rest with
            | d :: _ =>
                if is_digit d
                then let '(z, l) := read_digits rest 0%Z in
                     Some (VInt (- z), l)
                else None
            | [] => None
            end
          else if is_digit c then
            let '(z, l) := read_digits (c :: rest) 0%Z in Some (VInt z, l)
          else if bool_decide (c = "t"%char) then
            expect "true" (VBool true) (c :: rest)
          else if bool_decide (c = "f"%char) then
            expect "false" (VBool false) (c :: rest)
          else if bool_decide (c = "n"%char) then
            expect "null" VNone (c :: rest)
          else None
      end
  end.

Definition json_loads (text : string) : result value :=
  let l := String.list_ascii_of_string text in
  match read_value (S (length l)) l with
  | Some (v, rest) =>
      match skip_ws rest with
      | [] => Ok v
      | _ => Raise (Exn "JSONDecodeError" "Extra data")
      end
  | None => Raise (Exn "JSONDecodeError" "Expecting value")
  end.

(** Conditions of the form [doc.field == "literal"]; anything else
    is an error of the evaluator. *)
Definition safe_eval (expression : string) (ctx : context) : result value :=
  match lookup_name "doc" ctx with
  | Some (CDocument d) =>
      if String.prefix "doc." expression then
        let rest := after 4 expression in
        match String.index 0 (" == " +:+ dq) rest with
        | Some i =>
            let field := String.substring 0 i rest in
            let lit := after (i + 5) rest in
            match String.index 0 dq lit with
            | Some j =>
                match assoc field (Document.fields d) with
                | Some v =>
                    Ok (VBool (bool_decide (text_of (Some v) = String.substring 0 j lit)))
                | None => Ok (VBool false)
                end
            | None => Raise (Exn "SyntaxError" "unterminated string literal")
            end
        | None => Raise (Exn "SyntaxError" "unsupported expression")
        end
      else Raise (Exn "NameError" "name is not defined")
  | _ => Raise (Exn "NameError" "name 'doc' is not defined")
  end.

(** Documents. *)
Definition approved : Document.t :=
  Document.Make "Sales Order" "DOC-0001" false
    [("name", VStr "DOC-0001"); ("status", VStr "Approved")].

Definition draft : Document.t :=
  Document.Make "Sales Order" "DOC-0002" false
    [("name", VStr "DOC-0002"); ("status", VStr "Draft")].


Definition get_doc (doctype name : string) : result Document.t :=
  if bool_decide (doctype = "Sales Order") then
    if bool_decide (name = "DOC-0001") then Ok approved
    else if bool_decide (name = "DOC-0002") then Ok draft
    else Raise (Exn "DoesNotExistError" ("Sales Order " +:+ name +:+ " not found"))
  else Raise (Exn "DoesNotExistError" (doctype +:+ " " +:+ name +:+ " not found")).

(** Hook definitions. *)
Definition id_template : string :=
  "{" +:+ quoted "id" +:+ ": " +:+ quoted "{{ doc.name }}" +:+ "}".

Definition status_is_approved : string :=
  "doc.status == " +:+ quoted "Approved".

Definition template_hook : KafkaHook :=
  {| name := "HOOK-TPL"; enabled := true;
     webhook_doctype := "Sales Order"; webhook_docevent := "on_update";
     condition := EmptyString; process_data := "Template";
     webhook_method := EmptyString; webhook_json := id_template;
     kafka_settings := "Kafka Main"; kafka_topic := "orders" |}.

Definition method_hook : KafkaHook :=
  {| name := "HOOK-METHOD"; enabled := true;
     webhook_doctype := "Sales Order"; webhook_docevent := "on_change";
     condition := status_is_approved; process_data := "Method";
     webhook_method := "erp.api.order_message";
     webhook_json := "{}";
     kafka_settings := "Kafka Main"; kafka_topic := "orders" |}.

(** The broker is down for this hook's topic. *)
Definition down_hook : KafkaHook :=
  {| name := "HOOK-DOWN"; enabled := true;
     webhook_doctype := "Sales Order"; webhook_docevent := "on_submit";
     condition := EmptyString; process_data := "Template";
     webhook_method := EmptyString; webhook_json := id_template;
     kafka_settings := "Kafka Main"; kafka_topic := "down" |}.

(** The template of this hook does not render to JSON. *)
Definition broken_hook : KafkaHook :=
  {| name := "HOOK-BROKEN"; enabled := true;
     webhook_doctype := "Sales Order"; webhook_docevent := "on_update";
     condition := "status"; process_data := "Template";
     webhook_method := EmptyString; webhook_json := "{{ doc.name }";
     kafka_settings := "Kafka Main"; kafka_topic := "orders" |}.

(** The method of this hook returns data without an [id]. *)
Definition plain_hook : KafkaHook :=
  {| name := "HOOK-PLAIN"; enabled := false;
     webhook_doctype := "ToDo"; webhook_docevent := "after_insert";
     condition := EmptyString; process_data := "Method";
     webhook_method := "erp.api.plain_message";
     webhook_json := "{}";
     kafka_settings := "Kafka Main"; kafka_topic := "todos" |}.

Definition hooks : list KafkaHook :=
  [template_hook; method_hook; down_hook; broken_hook; plain_hook].

Definition get_cached_doc (n : string) : result KafkaHook :=
  match List.find (fun h => bool_decide (name h = n)) hooks with
  | Some h => Ok h
  | None => Raise (Exn "DoesNotExistError" ("Kafka Hook " +:+ n +:+ " not found"))
  end.

Definition order_message (doc : Document.t) : result (gmap string value) :=
  Ok (<["data" := VObj [("id", VStr "XYZ");
                        ("order", VStr (Document.name doc))]]>
        (<["proto_obj" := VStr "0a03585a59"]> ∅)).

Definition plain_message (doc : Document.t) : result (gmap string value) :=
  Ok (<["data" := VDict [("todo", VStr (Document.name doc))]]> ∅).

Definition get_attr (method_string : string)
    : result (Document.t -> result (gmap string value)) :=
  if bool_decide (method_string = "erp.api.order_message") then Ok order_message
  else if bool_decide (method_string = "erp.api.plain_message") then Ok plain_message
  else Raise (Exn "AppNotInstalledError" method_string).

Definition send_kafka (settings topic : string)
    (key data proto_obj is_protobuf_obj : value) : result value :=
  if bool_decide (topic = "down")
  then Raise (Exn "KafkaException" "broker transport failure")
  else Ok (VStr ("ack:" +:+ topic)).

Definition env (from_request : bool) : Env :=
  Build_Env
    from_request
    get_cached_doc
    get_doc
    get_attr
    Document.fields
    render_template
    json_loads
    safe_eval
    send_kafka
    (fun v => text_of (Some v))
    (fun e => "Traceback (most recent call last): " +:+ exn_kind e)
    (fun dt => if bool_decide (dt = "Sales Order") then VInt 1 else VInt 0)
    (fun dt => Ok (Document.Make dt EmptyString false []))
    (fun _ => Ok tt).

(** A definition on an entity type that is not submittable. *)
Definition todo_hook (event : string) : KafkaHook :=
  {| name := "HOOK-TODO"; enabled := true;
     webhook_doctype := "ToDo"; webhook_docevent := event;
     condition := EmptyString; process_data := "Template";
     webhook_method := EmptyString; webhook_json := id_template;
     kafka_settings := "Kafka Main"; kafka_topic := "todos" |}.

Definition no_flags : Flags :=
  {| in_import := false; in_patch := false; in_install := false;
     in_migrate := false; kafkahook_executed := None; kafkahook := None |}.

(** The start of a unit of work: fresh flags, an empty cache, the
    definitions above in the store, nothing queued or logged. *)
Definition world : World :=
  {| flags := no_flags; cache := ∅; store := hooks; store_queries := 0;
     queue := []; error_log := []; request_log := []; kafka_calls := [] |}.


End Demo.

(** * Vocabulary of the properties *)

Section Vocabulary.

Variable env : Env.

(** The body a Template-mode definition builds, in the words of the
    specification: serialize the document with dates as strings, render
    the template body against [doc] and the utilities, parse the text
    as JSON. *)
Definition template_payload (doc : Document.t) (template : string)
    : result value :=
  let serialized := as_dict env doc in
  let ctx := WEBHOOK_CONTEXT ++ [("doc", CMap serialized)] in
  match render_template env template ctx with
  | Ok text => json_loads env text
  | Raise e => Raise e
  end.

(** What [_run_kafka_hook] hands to the broker, and what it writes to
    the audit log after a send that fails. *)
Definition the_call (hook : KafkaHook) (data : gmap string value)
    (key is_protobuf_obj : value) : kafka_call :=
  {| kc_settings := kafka_settings hook; kc_topic := kafka_topic hook;
     kc_key := key; kc_data := dict_get data "data";
     kc_proto_obj := dict_get data "proto_obj";
     kc_is_protobuf_obj := is_protobuf_obj |}.

Definition failure_entry (hook : KafkaHook) (data : gmap string value)
    : request_entry :=
  {| req_topic := "Error: " +:+ kafka_topic hook;
     req_settings := kafka_settings hook;
     req_data := dict_get data "data"; req_response := VNone |}.

Definition success_entry (hook : KafkaHook) (data : gmap string value)
    (r : value) : request_entry :=
  {| req_topic := kafka_topic hook; req_settings := kafka_settings hook;
     req_data := dict_get data "data"; req_response := VStr (str env r) |}.

(** The names [frappe.flags.kafkahook_executed] holds for a document
    name (none before the flag is set). *)
Definition executed_for (w : World) (doc_name : string) : list string :=
  default [] (default ∅ (kafkahook_executed (flags w)) !! doc_name).

(** The flag is a dict (it is [None] at the start of a unit of work). *)
Definition initialised (w : World) : Prop :=
  kafkahook_executed (flags w) <> None.

(** The task [run_webhooks] enqueues for a hook name and a document. *)
Definition task_for (doc : Document.t) (hook_name : string) : Task :=
  {| task_doc := doc; task_kafka_hook_name := hook_name;
     task_after_commit := true |}.

(** The world after lines 207 to 217: the task is queued and the hook
    name recorded for the name of the document. *)
Definition dispatched (doc : Document.t) (hook_name : string) (w : World)
    : World :=
  set_flags
    (set_kafkahook_executed
       (Some (<[Document.name doc :=
                  executed_for w (Document.name doc) ++ [hook_name]]>
                (default ∅ (kafkahook_executed (flags w)))))
       (flags w))
    (set_queue (queue w ++ [task_for doc hook_name]) w).

(** A row is eligible for a document and an event: its event is the
    incoming one and its name is not yet recorded for the document. *)
Definition eligible (doc : Document.t) (method : string) (row : HookRow.t)
    (w : World) : Prop :=
  HookRow.webhook_docevent row = method
  /\ HookRow.name row ∉ executed_for w (Document.name doc).

(** The condition of a row evaluates to a true value on the document. *)
Definition evaluates_truthy (doc : Document.t) (row : HookRow.t) : Prop :=
  exists v, safe_eval env (HookRow.condition row)
              (context_with_doc (CDocument doc)) = Ok v
            /\ truthy v = true.

(** The outcomes of one turn of the loop of [run_webhooks]. *)
Inductive body_step (doc : Document.t) (method : string) (row : HookRow.t)
    (w : World) : World -> result unit -> Prop :=
  | BodySkip :
      ~ eligible doc method row w ->
      body_step doc method row w w (Ok tt)
  | BodyUnsatisfied v :
      eligible doc method row w ->
      HookRow.condition row <> EmptyString ->
      safe_eval env (HookRow.condition row)
        (context_with_doc (CDocument doc)) = Ok v ->
      truthy v = false ->
      body_step doc method row w w (Ok tt)
  | BodyRaise e :
      eligible doc method row w ->
      HookRow.condition row <> EmptyString ->
      safe_eval env (HookRow.condition row)
        (context_with_doc (CDocument doc)) = Raise e ->
      body_step doc method row w w (Raise e)
  | BodyFire :
      eligible doc method row w ->
      HookRow.condition row = EmptyString \/ evaluates_truthy doc row ->
      body_step doc method row w (dispatched doc (HookRow.name row) w) (Ok tt).

(** How many queued tasks carry a hook name and a document name. *)
Definition task_count (hook_name doc_name : string) (q : list Task) : nat :=
  length (List.filter
    (fun t => bool_decide (task_kafka_hook_name t = hook_name)
              && bool_decide (Document.name (task_doc t) = doc_name)) q).

(** The start of a unit of work: the flag unset, nothing queued yet. *)
Definition fresh_unit (w : World) : Prop :=
  kafkahook_executed (flags w) = None /\ queue w = [].

(** Every queued pair of hook name and document name is queued once and
    recorded as executed. *)
Definition dedup_inv (w : World) : Prop :=
  forall h d,
    task_count h d (queue w) <= 1
    /\ (0 < task_count h d (queue w) -> h ∈ executed_for w d).

(** [frappe.flags] suppresses the matcher. *)
Definition suppressed (w : World) : bool :=
  in_import (flags w) || in_patch (flags w) || in_install (flags w)
  || in_migrate (flags w).

(** The rows of the enabled definitions of a store for an entity type,
    in store order. *)
Definition enabled_rows_for (doctype : string) (st : list KafkaHook)
    : list HookRow.t :=
  row_of <$>
    List.filter (fun h => enabled h && bool_decide (webhook_doctype h = doctype))
      st.

(** The grouping of a store: for an entity type, the rows of its
    enabled definitions in store order, and no entry when there is none. *)
Definition grouping_of (st : list KafkaHook) (doctype : string)
    : option (list HookRow.t) :=
  match enabled_rows_for doctype st with
  | [] => None
  | rows => Some rows
  end.

(** How often a name occurs in a list of names. *)
Definition name_count (h : string) (l : list string) : nat :=
  length (List.filter (fun x => bool_decide (x = h)) l).

(** How many entries of an error log were written with a title only,
    as the loop of [run_kafka_hook] writes them. *)
Definition title_count (log : list error_entry) : nat :=
  length (List.filter
            (fun e => match e with LogTitle _ => true | LogArgs _ _ => false end)
            log).

(** What the matcher and the registry own: the queue, the flags, the
    cache, the store and the count of its queries. *)
Definition same_matcher_state (w w' : World) : Prop :=
  queue w' = queue w /\ flags w' = flags w /\ cache w' = cache w
  /\ store w' = store w /\ store_queries w' = store_queries w.

(** What the worker owns: the error log, the audit log, the calls of
    the broker. *)
Definition same_worker_state (w w' : World) : Prop :=
  error_log w' = error_log w /\ request_log w' = request_log w
  /\ kafka_calls w' = kafka_calls w.

(** The test of [validate_docevent] passes. *)
Definition docevent_ok (self : KafkaHook) : Prop :=
  webhook_doctype self = EmptyString
  \/ truthy (get_is_submittable env (webhook_doctype self)) = true
  \/ webhook_docevent self ∉
       ["on_submit"; "on_cancel"; "on_update_after_submit"].

(** The condition of a row holds on a document: it is empty or it
    evaluates to a true value. *)
Definition satisfied (doc : Document.t) (row : HookRow.t) : Prop :=
  HookRow.condition row = EmptyString \/ evaluates_truthy doc row.

(** [x.id] raises: [x] is not an object with an attribute [id]. *)
Definition has_no_id (x : value) : Prop :=
  forall attrs k, x = VObj attrs -> assoc "id" attrs <> Some k.

(** What the queue worker runs for a task: the call that
    [frappe.enqueue] was given, [run_kafka_hook(kafka_hook_name=...,
    doc=...)], with [doctype] and [doc_list] left at their defaults. *)
Definition run_task (t : Task) : M unit :=
  run_kafka_hook env (task_kafka_hook_name t) (Some (task_doc t))
    EmptyString DLNone.

End Vocabulary.

(** * Properties *)

(** ** The monad *)

Lemma bind_ok {A B} (m : M A) (k : A -> M B) w w' a :
  m w = (w', Ok a) -> bind m k w = k a w'.
Proof. intros H. unfold bind. by rewrite H. Qed.

Lemma bind_raise {A B} (m : M A) (k : A -> M B) w w' e :
  m w = (w', Raise e) -> bind m k w = (w', Raise e).
Proof. intros H. unfold bind. by rewrite H. Qed.

Lemma try_except_ok {A} (m : M A) (h : exn -> M A) w w' a :
  m w = (w', Ok a) -> try_except m h w = (w', Ok a).
Proof. intros H. unfold try_except. by rewrite H. Qed.

Lemma try_except_raise {A} (m : M A) (h : exn -> M A) w w' e :
  m w = (w', Raise e) -> try_except m h w = h e w'.
Proof. intros H. unfold try_except. by rewrite H. Qed.

Lemma for_each_cons {A} (body : A -> M unit) x l w :
  for_each body (x :: l) w =
  match body x w with
  | (w', Ok _) => for_each body l w'
  | (w', Raise e) => (w', Raise e)
  end.
Proof. reflexivity. Qed.

(** A loop over [pre ++ l] that gets through [pre] goes on with [l]. *)
Lemma for_each_app {A} (body : A -> M unit) pre l w w1 :
  for_each body pre w = (w1, Ok tt) ->
  for_each body (pre ++ l) w = for_each body l w1.
Proof.
  revert w. induction pre as [|x pre IH]; intros w H; simpl in *.
  - unfold ret in H. by inversion H.
  - unfold bind in *. destruct (body x w) as [w' [[]|e]]; [|discriminate].
    by apply IH.
Qed.

(** ** The worker: payload, key, send *)

Section Worker.

Variable env : Env.

(** Building the payload reads the collaborators and writes nothing. *)
Lemma get_webhook_data_world doc hook w :
  fst (get_webhook_data env doc hook w) = w.
Proof.
  unfold get_webhook_data, bind, lift, ret.
  case_bool_decide; simpl.
  - destruct (get_attr env (webhook_method hook)) as [f|e]; [|done].
    by destruct (f doc).
  - destruct (render_template env _ _) as [text|e]; [|done].
    by destruct (json_loads env text).
Qed.

Lemma partition_key_world hook data w :
  fst (partition_key hook data w) = w.
Proof.
  unfold partition_key, bind, lift, ret.
  destruct (_ && _); [|done].
  by destruct (getattr_id _).
Qed.

(** C6. For a Template-mode definition, [get_webhook_data] is
    [template_payload] of the document and the template body: the
    serialized document is rendered and the text parsed as JSON; the
    parsed value is the [data] of the payload and [proto_obj], the
    binary object, is [None].  A failure of the renderer or of the
    parser is the failure of [get_webhook_data]. *)
Theorem template_payload_round_trip (doc : Document.t) (hook : KafkaHook)
    (w : World) :
  process_data hook <> "Method" ->
  get_webhook_data env doc hook w =
  (w, match template_payload env doc (webhook_json hook) with
      | Ok body => Ok (<["data" := body]> (<["proto_obj" := VNone]> ∅))
      | Raise e => Raise e
      end).
Proof.
  intros Hmode. unfold get_webhook_data, template_payload.
  rewrite bool_decide_eq_false_2 by done.
  unfold bind, lift, ret, context_with_doc.
  destruct (render_template env _ _) as [text|e]; [|done].
  by destruct (json_loads env text).
Qed.

Lemma send_and_log_ok hook data key flag w r :
  send_kafka env (kafka_settings hook) (kafka_topic hook) key
    (dict_get data "data") (dict_get data "proto_obj") flag = Ok r ->
  send_and_log env hook data key flag w =
  (set_request_log (request_log w ++ [success_entry env hook data r])
     (set_kafka_calls (kafka_calls w ++ [the_call hook data key flag]) w),
   Ok tt).
Proof.
  intros Hsend.
  unfold send_and_log, try_except, call_send_kafka, bind, modify, lift.
  by rewrite Hsend.
Qed.

Lemma send_and_log_raise hook data key flag w e :
  send_kafka env (kafka_settings hook) (kafka_topic hook) key
    (dict_get data "data") (dict_get data "proto_obj") flag = Raise e ->
  send_and_log env hook data key flag w =
  (set_request_log (request_log w ++ [failure_entry hook data])
     (set_error_log
        (error_log w ++ [LogArgs (exn_msg e) (get_traceback env e)])
        (set_kafka_calls (kafka_calls w ++ [the_call hook data key flag]) w)),
   Ok tt).
Proof.
  intros Hsend.
  unfold send_and_log, try_except, call_send_kafka, bind, modify, lift.
  by rewrite Hsend.
Qed.

(** Whatever the broker does, the send returns and the call is recorded. *)
Lemma send_and_log_returns hook data key flag w :
  snd (send_and_log env hook data key flag w) = Ok tt
  /\ kafka_calls (fst (send_and_log env hook data key flag w))
     = kafka_calls w ++ [the_call hook data key flag].
Proof.
  destruct (send_kafka env (kafka_settings hook) (kafka_topic hook) key
              (dict_get data "data") (dict_get data "proto_obj") flag)
    as [r|e] eqn:Hsend.
  - by rewrite (send_and_log_ok _ _ _ _ _ _ Hsend).
  - by rewrite (send_and_log_raise _ _ _ _ _ _ Hsend).
Qed.

Lemma run_kafka_hook_steps hook doc w data key flag :
  get_webhook_data env doc hook w = (w, Ok data) ->
  partition_key hook data w = (w, Ok (key, flag)) ->
  _run_kafka_hook env hook doc w = send_and_log env hook data key flag w.
Proof.
  intros Hdata Hkey. unfold _run_kafka_hook.
  rewrite (bind_ok _ _ _ _ _ Hdata). by rewrite (bind_ok _ _ _ _ _ Hkey).
Qed.

Lemma run_kafka_hook_payload_raise hook doc w e :
  get_webhook_data env doc hook w = (w, Raise e) ->
  _run_kafka_hook env hook doc w = (w, Raise e).
Proof. intros H. unfold _run_kafka_hook. by rewrite (bind_raise _ _ _ _ _ H). Qed.

Lemma run_kafka_hook_key_raise hook doc w data e :
  get_webhook_data env doc hook w = (w, Ok data) ->
  partition_key hook data w = (w, Raise e) ->
  _run_kafka_hook env hook doc w = (w, Raise e).
Proof.
  intros Hdata Hkey. unfold _run_kafka_hook.
  rewrite (bind_ok _ _ _ _ _ Hdata). by rewrite (bind_raise _ _ _ _ _ Hkey).
Qed.

(** C5. In Method mode, with the method reference set, when the
    external function returns a structure whose [data] has an [id], the
    broker is called with that id as key and with the structured-object
    flag [True]; in Template mode the broker is called with key [None]
    (and flag [None]). *)
Theorem method_key_extraction (hook : KafkaHook) (doc : Document.t)
    (w : World) :
  (process_data hook = "Method" -> webhook_method hook <> EmptyString ->
   forall f data k,
     get_attr env (webhook_method hook) = Ok f ->
     f doc = Ok data ->
     getattr_id (dict_get data "data") = Ok k ->
     partition_key hook data w = (w, Ok (k, VBool true))
     /\ kafka_calls (fst (_run_kafka_hook env hook doc w))
        = kafka_calls w ++ [the_call hook data k (VBool true)])
  /\
  (process_data hook <> "Method" ->
   forall data,
     get_webhook_data env doc hook w = (w, Ok data) ->
     partition_key hook data w = (w, Ok (VNone, VNone))
     /\ kafka_calls (fst (_run_kafka_hook env hook doc w))
        = kafka_calls w ++ [the_call hook data VNone VNone]).
Proof.
  split.
  - intros Hmode Hmethod f data k Hattr Hf Hid.
    assert (Hdata : get_webhook_data env doc hook w = (w, Ok data)).
    { unfold get_webhook_data. rewrite bool_decide_eq_true_2 by done.
      unfold bind, lift. by rewrite Hattr, Hf. }
    assert (Hkey : partition_key hook data w = (w, Ok (k, VBool true))).
    { unfold partition_key, truthy_str.
      rewrite bool_decide_eq_true_2 by done.
      rewrite (bool_decide_eq_false_2 _ Hmethod). simpl.
      unfold bind, lift, ret. by rewrite Hid. }
    split; [done|].
    rewrite (run_kafka_hook_steps _ _ _ _ _ _ Hdata Hkey).
    apply send_and_log_returns.
  - intros Hmode data Hdata.
    assert (Hkey : partition_key hook data w = (w, Ok (VNone, VNone))).
    { unfold partition_key. by rewrite (bool_decide_eq_false_2 _ Hmode). }
    split; [done|].
    rewrite (run_kafka_hook_steps _ _ _ _ _ _ Hdata Hkey).
    apply send_and_log_returns.
Qed.

(** C1, as amended. An exception raised by the broker send is caught
    inside [_run_kafka_hook]: it is logged to the error log, an audit
    record is written with the topic prefixed by [Error: ] and a [None]
    response, and [_run_kafka_hook] returns.  An exception raised by
    payload building or by the determination of the key is outside the
    [try]: it leaves [_run_kafka_hook], with nothing logged. *)
Theorem send_failure_is_caught (hook : KafkaHook) (doc : Document.t)
    (w : World) :
  (forall data key flag e,
     get_webhook_data env doc hook w = (w, Ok data) ->
     partition_key hook data w = (w, Ok (key, flag)) ->
     send_kafka env (kafka_settings hook) (kafka_topic hook) key
       (dict_get data "data") (dict_get data "proto_obj") flag = Raise e ->
     _run_kafka_hook env hook doc w =
     (set_request_log (request_log w ++ [failure_entry hook data])
        (set_error_log
           (error_log w ++ [LogArgs (exn_msg e) (get_traceback env e)])
           (set_kafka_calls
              (kafka_calls w ++ [the_call hook data key flag]) w)),
      Ok tt))
  /\
  (forall e,
     get_webhook_data env doc hook w = (w, Raise e) ->
     _run_kafka_hook env hook doc w = (w, Raise e))
  /\
  (forall data e,
     get_webhook_data env doc hook w = (w, Ok data) ->
     partition_key hook data w = (w, Raise e) ->
     _run_kafka_hook env hook doc w = (w, Raise e)).
Proof.
  split; [|split].
  - intros data key flag e Hdata Hkey Hsend.
    rewrite (run_kafka_hook_steps _ _ _ _ _ _ Hdata Hkey).
    by apply send_and_log_raise.
  - apply run_kafka_hook_payload_raise.
  - apply run_kafka_hook_key_raise.
Qed.

(** With the hook resolved, the entry point called with a document is
    [_run_kafka_hook]; called with a list of names it is the loop. *)
Lemma run_kafka_hook_doc name hook doc doctype dl w :
  get_cached_doc env name = Ok hook ->
  run_kafka_hook env name (Some doc) doctype dl w
  = _run_kafka_hook env hook doc w.
Proof. intros H. unfold run_kafka_hook, bind, lift. by rewrite H. Qed.

Lemma run_kafka_hook_list name hook doctype l w :
  get_cached_doc env name = Ok hook ->
  run_kafka_hook env name None doctype (DLList l) w
  = run_doc_list env hook (request env) doctype l w.
Proof. intros H. unfold run_kafka_hook, bind, lift. by rewrite H. Qed.

(** Outside a request the loop over the names catches everything. *)
Lemma run_doc_list_background hook doctype l w :
  snd (run_doc_list env hook false doctype l w) = Ok tt.
Proof.
  revert w. induction l as [|n l IH]; intros w; [done|].
  unfold run_doc_list in *. rewrite for_each_cons.
  unfold try_except at 1.
  destruct (bind _ _ w) as [w' [[]|e]]; [apply IH|].
  unfold log_error, modify. apply IH.
Qed.


(** C4. In a batch, when the loop has got through the names before [n]
    and [n] does not resolve: called from a request, the failure leaves
    [run_kafka_hook] and the names after [n] are not processed; called
    outside a request, the failure is logged, the loop goes on with the
    names after [n], and the batch returns. *)
Theorem resolution_failure_in_batch (name : string) (hook : KafkaHook)
    (doctype : string) (pre : list string) (n : string)
    (rest : list string) (w w1 : World) (e : exn) :
  get_cached_doc env name = Ok hook ->
  run_kafka_hook env name None doctype (DLList pre) w = (w1, Ok tt) ->
  get_doc env doctype n = Raise e ->
  (request env = true ->
   run_kafka_hook env name None doctype (DLList (pre ++ n :: rest)) w
   = (w1, Raise e))
  /\
  (request env = false ->
   run_kafka_hook env name None doctype (DLList (pre ++ n :: rest)) w
   = run_kafka_hook env name None doctype (DLList rest)
       (set_error_log
          (error_log w1 ++ [LogTitle "Error running Kafka Hook"]) w1)
   /\ snd (run_kafka_hook env name None doctype
             (DLList (pre ++ n :: rest)) w) = Ok tt).
Proof.
  intros Hhook Hpre Hdoc.
  rewrite !(run_kafka_hook_list _ _ _ _ _ Hhook) in *.
  unfold run_doc_list in *.
  rewrite (for_each_app _ _ _ _ _ Hpre), for_each_cons.
  unfold try_except at 1 3. unfold bind at 1 3, lift at 1 3. rewrite Hdoc.
  split; intros Hreq; rewrite Hreq.
  - done.
  - unfold log_error, modify. split; [done|].
    apply (run_doc_list_background hook doctype rest).
Qed.

End Worker.

(** ** The matcher: one turn of the loop *)

Section Matcher.

Variable env : Env.

Lemma executed_for_initialised w ex d :
  kafkahook_executed (flags w) = Some ex ->
  executed_for w d = default [] (ex !! d).
Proof. intros H. unfold executed_for. by rewrite H. Qed.

Lemma read_executed_ok w ex :
  kafkahook_executed (flags w) = Some ex -> read_executed w = (w, Ok ex).
Proof. intros H. unfold read_executed, bind, get_world. by rewrite H. Qed.

Lemma dispatch_ok doc hook_name w :
  initialised w ->
  bind (enqueue doc hook_name)
    (fun _ => record_executed (Document.name doc) hook_name) w
  = (dispatched doc hook_name w, Ok tt).
Proof.
  unfold initialised. intros Hinit.
  destruct (kafkahook_executed (flags w)) as [ex|] eqn:Hex; [|done].
  unfold enqueue, modify. unfold bind at 1.
  unfold record_executed. erewrite bind_ok; [|by apply read_executed_ok].
  unfold modify, dispatched.
  by rewrite (executed_for_initialised _ _ _ Hex), Hex.
Qed.

(** One turn of the loop, in a world where the flag is set, is one of
    the four outcomes. *)
Lemma webhook_body_step doc method row w w' r :
  initialised w ->
  webhook_body env doc method row w = (w', r) ->
  body_step env doc method row w w' r.
Proof.
  intros Hinit. pose proof Hinit as Hinit'. unfold initialised in Hinit'.
  destruct (kafkahook_executed (flags w)) as [ex|] eqn:Hex; [|done].
  unfold webhook_body.
  case_bool_decide as Hevent; simpl.
  2:{ intros [= <- <-]. apply BodySkip. by intros [? _]. }
  rewrite (bind_ok _ _ _ _ _ (read_executed_ok _ _ Hex)).
  rewrite <- (executed_for_initialised _ _ (Document.name doc) Hex).
  case_bool_decide as Hmem.
  { intros [= <- <-]. apply BodySkip. by intros [_ Hn]. }
  assert (Helig : eligible doc method row w) by done.
  unfold truthy_str. case_bool_decide as Hcond; simpl.
  - unfold bind at 1, ret at 1. simpl. rewrite (dispatch_ok _ _ _ Hinit).
    intros [= <- <-]. apply BodyFire; auto.
  - unfold bind at 1, bind at 1, lift.
    destruct (safe_eval env _ _) as [v|e] eqn:Heval.
    + unfold ret at 1. destruct (truthy v) eqn:Hv; simpl.
      * rewrite (dispatch_ok _ _ _ Hinit). intros [= <- <-].
        apply BodyFire; [done|]. right. by exists v.
      * intros [= <- <-]. by apply (BodyUnsatisfied _ _ _ _ _ v).
    + intros [= <- <-]. by apply BodyRaise.
Qed.


(** *** Facts on [dispatched] and on the count of tasks *)

Lemma queue_dispatched doc n w :
  queue (dispatched doc n w) = queue w ++ [task_for doc n].
Proof. reflexivity. Qed.

Lemma initialised_dispatched doc n w : initialised (dispatched doc n w).
Proof. unfold initialised, dispatched. simpl. done. Qed.

Lemma executed_for_dispatched doc n w d :
  executed_for (dispatched doc n w) d =
  if decide (Document.name doc = d) then executed_for w d ++ [n]
  else executed_for w d.
Proof.
  unfold executed_for at 1. unfold dispatched. simpl.
  rewrite lookup_insert. case_decide as Hd; simpl; [by subst|done].
Qed.

Lemma executed_for_dispatched_mono doc n w d h :
  h ∈ executed_for w d -> h ∈ executed_for (dispatched doc n w) d.
Proof.
  intros Hh. rewrite executed_for_dispatched. case_decide; [|done].
  apply elem_of_app. by left.
Qed.

Lemma task_count_app h d q1 q2 :
  task_count h d (q1 ++ q2) = task_count h d q1 + task_count h d q2.
Proof. unfold task_count. by rewrite List.filter_app, length_app. Qed.

Lemma task_count_task_for h d doc n :
  task_count h d [task_for doc n] =
  if decide (n = h /\ Document.name doc = d) then 1 else 0.
Proof.
  unfold task_count. simpl.
  case_decide as Hd.
  - destruct Hd as [-> ->]. by rewrite !bool_decide_eq_true_2.
  - case_bool_decide; [|done]. case_bool_decide; [|done]. by destruct Hd.
Qed.

(** *** What one turn of the loop keeps *)

Lemma body_step_initialised doc method row w w' r :
  body_step env doc method row w w' r -> initialised w -> initialised w'.
Proof. destruct 1; auto using initialised_dispatched. Qed.

Lemma body_step_executed_mono doc method row w w' r h d :
  body_step env doc method row w w' r ->
  h ∈ executed_for w d -> h ∈ executed_for w' d.
Proof. destruct 1; auto using executed_for_dispatched_mono. Qed.

Lemma body_step_dedup doc method row w w' r :
  body_step env doc method row w w' r -> dedup_inv w -> dedup_inv w'.
Proof.
  destruct 1 as [| | |[Hev Hnot] _]; auto.
  intros Hinv h d. destruct (Hinv h d) as [Hle Hin].
  rewrite queue_dispatched, task_count_app, task_count_task_for.
  rewrite executed_for_dispatched.
  case_decide as Hhd.
  - destruct Hhd as [<- <-]. rewrite decide_True by done.
    assert (task_count (HookRow.name row) (Document.name doc) (queue w) = 0) as ->.
    { destruct (task_count _ _ (queue w)) eqn:Hc; [done|].
      exfalso. apply Hnot, Hin. lia. }
    split; [lia|]. intros _. apply elem_of_app. right. by apply list_elem_of_singleton.
  - rewrite Nat.add_0_r. split; [done|]. intros Hpos.
    case_decide; [|by apply Hin]. apply elem_of_app. left. by apply Hin.
Qed.

(** A turn of the loop queues nothing for a name already recorded. *)
Lemma body_step_skips_executed doc method row w w' r h d :
  body_step env doc method row w w' r ->
  h ∈ executed_for w d ->
  task_count h d (queue w') = task_count h d (queue w).
Proof.
  destruct 1 as [| | |[Hev Hnot] _]; auto.
  intros Hh. rewrite queue_dispatched, task_count_app, task_count_task_for.
  case_decide as Hhd; [|lia]. by destruct Hhd as [<- <-].
Qed.

(** *** The loop *)

Lemma for_each_preserves {A} (P : World -> Prop) (body : A -> M unit) l :
  (forall x w w' r, P w -> body x w = (w', r) -> P w') ->
  forall w w' r, P w -> for_each body l w = (w', r) -> P w'.
Proof.
  intros Hbody. induction l as [|x l IH]; intros w w' r HP; simpl.
  - by intros [= <- <-].
  - unfold bind. destruct (body x w) as [w1 [[]|e]] eqn:Hx.
    + apply IH. by eapply Hbody.
    + intros [= <- <-]. by eapply Hbody.
Qed.


(** *** The shape of [run_webhooks] *)

(** Either [run_webhooks] returns at once, leaving the world as it is,
    or it runs the loop from a world where the flag is set, with the
    same queue and the same recorded names. *)
Lemma run_webhooks_shape doc method w :
  run_webhooks env doc method w = (w, Ok tt)
  \/ exists w1 hooks,
       suppressed w = false
       /\ method ∈ event_list (Document.in_insert doc)
       /\ initialised w1
       /\ queue w1 = queue w
       /\ (forall d, executed_for w1 d = executed_for w d)
       /\ run_webhooks env doc method w
          = for_each (webhook_body env doc method) hooks w1.
Proof.
  remember (run_webhooks env doc method w) as R eqn:HR.
  unfold run_webhooks in HR. unfold bind at 1, get_world in HR.
  cbv beta iota in HR.
  change (in_import (flags w) || in_patch (flags w) || in_install (flags w)
          || in_migrate (flags w)) with (suppressed w) in HR.
  destruct (suppressed w) eqn:Hsup; [by left|].
  case_bool_decide as Hev; simpl in HR; [|by left].
  right. unfold executed_for, initialised.
  cbv [bind ret modify get_world fetch_webhooks_from_redis cache_get_value
       generate_kafkahook get_all_enabled] in HR.
  destruct (kafkahook_executed (flags w)) as [ex|] eqn:Hex;
    simpl in HR;
    destruct (kafkahook (flags w)) as [reg|] eqn:Hreg;
    simpl in HR;
    try destruct (cache w !! "kafkahook") as [val|] eqn:Hc;
    simpl in HR; rewrite ?Hreg in HR;
    match type of HR with
    | _ = (match ?reg' !! _ with _ => _ end) _ =>
        eexists _, (default [] (reg' !! Document.doctype doc));
        split_and!; [done|done| | | |];
        [| | |rewrite HR;
               destruct (reg' !! Document.doctype doc) as [[|]|];
               reflexivity];
        simpl; rewrite ?Hex; done
    end.
Qed.


(** *** What [run_webhooks] and the steps of a unit keep *)

(** A property of the queue and of the recorded names that every turn
    of the loop keeps is kept by [run_webhooks]. *)
Lemma run_webhooks_preserves (Q : World -> Prop) doc method w :
  (forall w w1, queue w1 = queue w ->
                (forall d, executed_for w1 d = executed_for w d) ->
                Q w -> Q w1) ->
  (forall row w w' r, body_step env doc method row w w' r -> Q w -> Q w') ->
  Q w -> Q (fst (run_webhooks env doc method w)).
Proof.
  intros Hframe Hstep HQ.
  destruct (run_webhooks_shape doc method w)
    as [->|(w1 & hooks & _ & _ & Hinit & Hq & Hex & ->)]; [done|].
  destruct (for_each _ hooks w1) as [w' r] eqn:Hloop. simpl.
  eapply (for_each_preserves (fun w => initialised w /\ Q w)) in Hloop.
  - apply Hloop.
  - intros row v v' r' [Hi HQ'] Hbody.
    apply webhook_body_step in Hbody; [|done].
    split; [by eapply body_step_initialised|by eapply Hstep].
  - split; [done|]. by apply (Hframe w).
Qed.

Lemma validate_docevent_world h w : fst (validate_docevent env h w) = w.
Proof. unfold validate_docevent, throw, raise, ret. by repeat case_match. Qed.

Lemma validate_condition_world h w : fst (validate_condition env h w) = w.
Proof.
  unfold validate_condition, try_except, throw, raise, bind, lift, ret.
  by repeat case_match; simplify_eq.
Qed.

Lemma validate_request_body_world h w :
  fst (validate_request_body env h w) = w.
Proof. done. Qed.

(** Validation reads the collaborators and writes nothing. *)
Lemma validate_world h w : fst (validate env h w) = w.
Proof.
  unfold validate, bind.
  pose proof (validate_docevent_world h w) as H1.
  destruct (validate_docevent env h w) as [w1 [[]|e1]]; simpl in H1; subst;
    [|done].
  pose proof (validate_condition_world h w) as H2.
  destruct (validate_condition env h w) as [w2 [[]|e2]]; simpl in H2; subst;
    [|done].
  apply validate_request_body_world.
Qed.

(** A write of a definition leaves the queue and the flags alone. *)
Lemma definition_step_frame s w :
  (forall doc method, s <> DocEvent doc method) ->
  queue (fst (run_step env s w)) = queue w
  /\ flags (fst (run_step env s w)) = flags w.
Proof.
  intros Hs. destruct s as [doc method|h|h|h]; [by destruct (Hs doc method)|..];
    simpl; unfold insert_definition, save_definition, delete_definition, bind.
  - pose proof (validate_world h w) as Hv.
    destruct (validate env h w) as [w' [[]|e]]; simpl in *; by subst.
  - pose proof (validate_world h w) as Hv.
    destruct (validate env h w) as [w' [[]|e]]; simpl in *; by subst.
  - done.
Qed.

Lemma run_step_preserves (Q : World -> Prop) s w :
  (forall w w1, queue w1 = queue w ->
                (forall d, executed_for w1 d = executed_for w d) ->
                Q w -> Q w1) ->
  (forall doc method row w w' r,
     body_step env doc method row w w' r -> Q w -> Q w') ->
  Q w -> Q (fst (run_step env s w)).
Proof.
  intros Hframe Hstep HQ.
  destruct s as [doc method|h|h|h] eqn:Hs.
  - simpl. apply run_webhooks_preserves; eauto.
  - destruct (definition_step_frame (InsertDefinition h) w) as [Hq Hf]; [done|].
    apply (Hframe w); [done| |done]. intros d. unfold executed_for. by rewrite Hf.
  - destruct (definition_step_frame (SaveDefinition h) w) as [Hq Hf]; [done|].
    apply (Hframe w); [done| |done]. intros d. unfold executed_for. by rewrite Hf.
  - destruct (definition_step_frame (DeleteDefinition h) w) as [Hq Hf]; [done|].
    apply (Hframe w); [done| |done]. intros d. unfold executed_for. by rewrite Hf.
Qed.

Lemma run_unit_preserves (Q : World -> Prop) steps w :
  (forall w w1, queue w1 = queue w ->
                (forall d, executed_for w1 d = executed_for w d) ->
                Q w -> Q w1) ->
  (forall doc method row w w' r,
     body_step env doc method row w w' r -> Q w -> Q w') ->
  Q w -> Q (run_unit env steps w).
Proof.
  intros Hframe Hstep. revert w.
  induction steps as [|s steps IH]; intros w HQ; simpl; [done|].
  apply IH. by apply run_step_preserves.
Qed.

Lemma run_unit_app s1 s2 w :
  run_unit env (s1 ++ s2) w = run_unit env s2 (run_unit env s1 w).
Proof. revert w. induction s1 as [|s s1 IH]; intros w; simpl; [done|apply IH]. Qed.

Lemma dedup_inv_fresh w : fresh_unit w -> dedup_inv w.
Proof.
  intros [_ Hq] h d. rewrite Hq. unfold task_count. simpl. split; lia.
Qed.

(** C2. In a unit of work that starts with fresh flags, whatever the
    events and the writes of definitions: at the end no hook name is
    queued more than once for a document name; and from the point
    where a hook name is recorded for a document name, nothing that
    follows in the unit queues it again for that name. *)
Theorem dedup_per_unit_of_work (steps : list unit_step) (w : World) :
  fresh_unit w ->
  (forall h d, task_count h d (queue (run_unit env steps w)) <= 1)
  /\
  (forall s1 s2 h d,
     steps = s1 ++ s2 ->
     h ∈ executed_for (run_unit env s1 w) d ->
     h ∈ executed_for (run_unit env steps w) d
     /\ task_count h d (queue (run_unit env steps w))
        = task_count h d (queue (run_unit env s1 w))).
Proof.
  intros Hfresh. split.
  - intros h d.
    apply (run_unit_preserves dedup_inv steps w); [| |by apply dedup_inv_fresh].
    + intros v v1 Hq Hex Hinv h' d'. rewrite Hq, Hex. apply Hinv.
    + intros. by eapply body_step_dedup.
  - intros s1 s2 h d -> Hh. rewrite run_unit_app.
    set (w1 := run_unit env s1 w) in *.
    apply (run_unit_preserves
             (fun v => h ∈ executed_for v d
                       /\ task_count h d (queue v) = task_count h d (queue w1))
             s2 w1); [| |done].
    + intros v v1 Hq Hex [? ?]. by rewrite Hq, Hex.
    + intros doc method row v v' r Hstep [Hin Hc]. split.
      * by eapply body_step_executed_mono.
      * rewrite <- Hc. by eapply body_step_skips_executed.
Qed.


(** Every turn of the loop of a pass runs with the flag set. *)
Lemma loop_initialised doc method rows w w' r :
  initialised w ->
  for_each (webhook_body env doc method) rows w = (w', r) ->
  initialised w'.
Proof.
  intros Hinit Hloop.
  eapply (for_each_preserves initialised) in Hloop; [done| |done].
  intros x v v' r' Hi Hb. apply webhook_body_step in Hb; [|done].
  by eapply body_step_initialised.
Qed.

(** A condition that raises ends the pass: the rows after it get no
    turn (the open question of section 9 of the specification). *)
Lemma condition_raise_ends_pass doc method row rest w e :
  initialised w ->
  eligible doc method row w ->
  HookRow.condition row <> EmptyString ->
  safe_eval env (HookRow.condition row) (context_with_doc (CDocument doc))
  = Raise e ->
  for_each (webhook_body env doc method) (row :: rest) w = (w, Raise e).
Proof.
  intros Hinit Helig Hc Hev. rewrite for_each_cons.
  destruct (webhook_body env doc method row w) as [v r] eqn:Hbody.
  apply webhook_body_step in Hbody; [|done].
  destruct Hbody as [Hnot|x _ _ Hev' _|e' _ _ Hev'|_ [Hc'|(x & Hev' & _)]];
    try done; congruence.
Qed.


End Matcher.


(** ** The registry cache *)

Section Registry.

Variable env : Env.

Lemma setdefault_append_lookup m r dt :
  setdefault_append m r !! dt =
  if decide (HookRow.webhook_doctype r = dt)
  then Some (default [] (m !! dt) ++ [r])
  else m !! dt.
Proof.
  unfold setdefault_append. rewrite lookup_insert.
  case_decide as Hd; [by subst|done].
Qed.

(** Grouping keeps, for every entity type, the rows of that type in
    the order of the list. *)
Lemma foldl_setdefault_append_lookup rows (m : gmap string (list HookRow.t)) dt :
  foldl setdefault_append m rows !! dt =
  match List.filter (fun r => bool_decide (HookRow.webhook_doctype r = dt)) rows with
  | [] => m !! dt
  | sel => Some (default [] (m !! dt) ++ sel)
  end.
Proof.
  revert m. induction rows as [|r rows IH]; intros m; simpl; [done|].
  rewrite IH, setdefault_append_lookup.
  case_bool_decide as Hd.
  - rewrite decide_True by done. simpl.
    destruct (List.filter _ rows) as [|r' sel]; [done|].
    by rewrite <- app_assoc.
  - by rewrite decide_False by done.
Qed.

Lemma filter_rows_enabled dt (st : list KafkaHook) :
  List.filter (fun r => bool_decide (HookRow.webhook_doctype r = dt))
    (row_of <$> List.filter enabled st)
  = enabled_rows_for dt st.
Proof.
  unfold enabled_rows_for. induction st as [|h st IH]; [done|].
  cbn [List.filter]. destruct (enabled h); cbn [andb]; [|done].
  rewrite fmap_cons. cbn [List.filter]. unfold row_of at 1.
  cbn [HookRow.webhook_doctype].
  case_bool_decide; rewrite IH.
  - by rewrite bool_decide_eq_true_2.
  - by rewrite bool_decide_eq_false_2.
Qed.

Lemma generate_kafkahook_ok w :
  exists reg,
    generate_kafkahook w = (set_store_queries (S (store_queries w)) w, Ok reg)
    /\ forall dt, reg !! dt = grouping_of (store w) dt.
Proof.
  eexists. split; [reflexivity|]. intros dt.
  rewrite foldl_setdefault_append_lookup, filter_rows_enabled, lookup_empty.
  unfold grouping_of. by destruct (enabled_rows_for dt (store w)).
Qed.

Lemma fetch_hit w reg :
  cache w !! "kafkahook" = Some reg ->
  fetch_webhooks_from_redis w = (w, Ok reg).
Proof.
  intros H. unfold fetch_webhooks_from_redis, cache_get_value, bind, get_world.
  by rewrite H.
Qed.

Lemma fetch_miss w :
  cache w !! "kafkahook" = None ->
  exists reg,
    fetch_webhooks_from_redis w
    = (set_cache (<["kafkahook" := reg]> (cache w))
         (set_store_queries (S (store_queries w)) w), Ok reg)
    /\ forall dt, reg !! dt = grouping_of (store w) dt.
Proof.
  intros H. destruct (generate_kafkahook_ok w) as (reg & Hgen & Hreg).
  exists reg. split; [|done].
  unfold fetch_webhooks_from_redis, cache_get_value, bind at 1, get_world.
  rewrite H. by rewrite (bind_ok _ _ _ _ _ Hgen).
Qed.

(** After a call the value is in the cache, and it is the answer. *)
Lemma fetch_fills_cache w :
  exists reg,
    snd (fetch_webhooks_from_redis w) = Ok reg
    /\ cache (fst (fetch_webhooks_from_redis w)) !! "kafkahook" = Some reg.
Proof.
  destruct (cache w !! "kafkahook") as [reg|] eqn:Hc.
  - exists reg. by rewrite (fetch_hit _ _ Hc).
  - destruct (fetch_miss w Hc) as (reg & -> & _). exists reg.
    split; [done|]. simpl. by rewrite lookup_insert_eq.
Qed.

(** C7. On a miss [fetch_webhooks_from_redis] makes one query of the
    store and answers with the grouping of the enabled definitions by
    entity type, which it caches; on a hit it answers with the cached
    grouping and leaves the world (and the query count) as it is; so a
    call in any world with the same cache entry as after a first call
    gives the same grouping without a query.  [on_update] and
    [on_trash], which the record store runs on every insert, save and
    delete of a definition, remove the entry: the next call is a miss,
    it queries the store and groups the definitions persisted then. *)
Theorem registry_cache (w : World) (h : KafkaHook) :
  (cache w !! "kafkahook" = None ->
   exists reg,
     fetch_webhooks_from_redis w
     = (set_cache (<["kafkahook" := reg]> (cache w))
          (set_store_queries (S (store_queries w)) w), Ok reg)
     /\ forall dt, reg !! dt = grouping_of (store w) dt)
  /\
  (forall reg, cache w !! "kafkahook" = Some reg ->
               fetch_webhooks_from_redis w = (w, Ok reg))
  /\
  (forall w',
     cache w' !! "kafkahook"
     = cache (fst (fetch_webhooks_from_redis w)) !! "kafkahook" ->
     fetch_webhooks_from_redis w' = (w', snd (fetch_webhooks_from_redis w)))
  /\
  (cache (fst (on_update h w)) !! "kafkahook" = None
   /\ cache (fst (on_trash h w)) !! "kafkahook" = None)
  /\
  (forall s w',
     s = InsertDefinition h \/ s = SaveDefinition h \/ s = DeleteDefinition h ->
     run_step env s w = (w', Ok tt) ->
     cache w' !! "kafkahook" = None
     /\ exists reg,
          fetch_webhooks_from_redis w'
          = (set_cache (<["kafkahook" := reg]> (cache w'))
               (set_store_queries (S (store_queries w')) w'), Ok reg)
          /\ forall dt, reg !! dt = grouping_of (store w') dt).
Proof.
  split; [|split; [|split; [|split]]].
  - apply fetch_miss.
  - apply fetch_hit.
  - intros w' Hc. destruct (fetch_fills_cache w) as (reg & -> & Hreg).
    apply fetch_hit. by rewrite Hc.
  - split; unfold on_update, on_trash, modify; cbn [fst cache set_cache];
      apply lookup_delete_eq.
  - intros s w' Hs Hrun.
    assert (Hevict : cache w' !! "kafkahook" = None).
    { destruct Hs as [->|[->| ->]]; simpl in Hrun;
        unfold insert_definition, save_definition, delete_definition,
          bind in Hrun.
      - destruct (validate env h w) as [w1 [[]|e]]; [|done].
        unfold modify, on_update in Hrun. injection Hrun as <-.
        cbn [cache set_cache set_store]. apply lookup_delete_eq.
      - destruct (validate env h w) as [w1 [[]|e]]; [|done].
        unfold modify, on_update in Hrun. injection Hrun as <-.
        cbn [cache set_cache set_store]. apply lookup_delete_eq.
      - unfold modify, on_trash in Hrun. injection Hrun as <-.
        cbn [cache set_cache set_store]. apply lookup_delete_eq. }
    split; [done|]. by apply fetch_miss.
Qed.

End Registry.

(** ** Validation of the trigger event *)

Section Validation.

Variable env : Env.

(** For the three events it lists, [validate_docevent] rejects a
    definition on an entity type that is not submittable. *)
Lemma validate_docevent_rejects (self : KafkaHook) (w : World) :
  webhook_doctype self <> EmptyString ->
  truthy (get_is_submittable env (webhook_doctype self)) = false ->
  webhook_docevent self ∈ ["on_submit"; "on_cancel"; "on_update_after_submit"] ->
  validate env self w
  = (w, Raise (Exn "ValidationError"
                 "DocType must be Submittable for the selected Doc Event")).
Proof.
  intros Hdt Hsub Hev. unfold validate.
  apply bind_raise. unfold validate_docevent, truthy_str.
  rewrite (bool_decide_eq_false_2 _ Hdt), Hsub. simpl.
  by rewrite (bool_decide_eq_true_2 _ Hev).
Qed.

(** Any other event passes [validate_docevent], submittable or not. *)
Lemma validate_docevent_accepts (self : KafkaHook) (w : World) :
  webhook_docevent self ∉ ["on_submit"; "on_cancel"; "on_update_after_submit"] ->
  validate_docevent env self w = (w, Ok tt).
Proof.
  intros Hev. unfold validate_docevent.
  rewrite (bool_decide_eq_false_2 _ Hev), andb_false_r.
  by destruct (truthy_str _).
Qed.

End Validation.

(** C9. Submittable gating misses [before_update_after_submit].
    On the entity type [ToDo], which is not submittable, the event that
    the matcher acts on after a submit, [before_update_after_submit],
    passes validation and the definition is persisted;
    [validate_docevent] tests for [on_update_after_submit], which is
    not an event of the matcher, next to [on_submit] and [on_cancel],
    which it rejects. *)
Lemma before_update_after_submit_not_gated :
  truthy (get_is_submittable (Demo.env false) "ToDo") = false
  /\ ("before_update_after_submit" ∈ event_list false)
  /\ ("on_update_after_submit" ∉ event_list false)
  /\ validate (Demo.env false) (Demo.todo_hook "before_update_after_submit")
       Demo.world = (Demo.world, Ok tt)
  /\ store (fst (insert_definition (Demo.env false)
                   (Demo.todo_hook "before_update_after_submit") Demo.world))
     = Demo.hooks ++ [Demo.todo_hook "before_update_after_submit"]
  /\ (forall event,
        event ∈ ["on_submit"; "on_cancel"; "on_update_after_submit"] ->
        validate (Demo.env false) (Demo.todo_hook event) Demo.world
        = (Demo.world,
           Raise (Exn "ValidationError"
                    "DocType must be Submittable for the selected Doc Event"))).
Proof.
  split; [reflexivity|].
  split; [vm_compute; reflexivity|].
  split; [vm_compute; discriminate|].
  split; [reflexivity|].
  split; [reflexivity|].
  intros event Hev. by apply validate_docevent_rejects.
Qed.

(** * The properties on concrete inputs *)

(** The example of the specification: the template body
    [{"id": "{{ doc.name }}"}] and the document named [DOC-0001]. *)
Lemma template_payload_round_trip_witness :
  process_data Demo.template_hook <> "Method" /\
  webhook_json Demo.template_hook
    = "{" +:+ Demo.quoted "id" +:+ ": " +:+ Demo.quoted "{{ doc.name }}" +:+ "}" /\
  Document.name Demo.approved = "DOC-0001" /\
  get_webhook_data (Demo.env false) Demo.approved Demo.template_hook Demo.world
    = (Demo.world,
       Ok (<["data" := VDict [("id", VStr "DOC-0001")]]>
             (<["proto_obj" := VNone]> ∅))).
Proof.
  split; [discriminate|]. split; [reflexivity|]. split; [reflexivity|].
  rewrite (template_payload_round_trip (Demo.env false) Demo.approved
             Demo.template_hook Demo.world); [|discriminate].
  reflexivity.
Defined.

(** The example of the specification: a method whose [data.id] is
    [XYZ]; and a Template-mode hook, sent without a key. *)
Lemma method_key_extraction_witness :
  (process_data Demo.method_hook = "Method"
   /\ webhook_method Demo.method_hook <> EmptyString
   /\ getattr_id (dict_get
        (<["data" := VObj [("id", VStr "XYZ"); ("order", VStr "DOC-0001")]]>
           (<["proto_obj" := VStr "0a03585a59"]> ∅)) "data") = Ok (VStr "XYZ")
   /\ (kc_key <$> kafka_calls (fst (_run_kafka_hook (Demo.env false)
                  Demo.method_hook Demo.approved Demo.world))) = [VStr "XYZ"]
   /\ (kc_is_protobuf_obj <$> kafka_calls (fst (_run_kafka_hook (Demo.env false)
                  Demo.method_hook Demo.approved Demo.world))) = [VBool true])
  /\
  (process_data Demo.template_hook <> "Method"
   /\ (kc_key <$> kafka_calls (fst (_run_kafka_hook (Demo.env false)
                  Demo.template_hook Demo.approved Demo.world))) = [VNone]).
Proof.
  pose (data := <["data" := VObj [("id", VStr "XYZ"); ("order", VStr "DOC-0001")]]>
                  (<["proto_obj" := VStr "0a03585a59"]> (∅ : gmap string value))).
  pose (body := <["data" := VDict [("id", VStr "DOC-0001")]]>
                  (<["proto_obj" := VNone]> (∅ : gmap string value))).
  assert (Hmode : process_data Demo.method_hook = "Method") by reflexivity.
  assert (Hmethod : webhook_method Demo.method_hook <> EmptyString)
    by discriminate.
  assert (Hid : getattr_id (dict_get data "data") = Ok (VStr "XYZ"))
    by reflexivity.
  assert (Htpl : process_data Demo.template_hook <> "Method") by discriminate.
  destruct (proj1 (method_key_extraction (Demo.env false) Demo.method_hook
                     Demo.approved Demo.world)
              Hmode Hmethod Demo.order_message data (VStr "XYZ")
              eq_refl eq_refl Hid) as [_ Hcalls].
  destruct (proj2 (method_key_extraction (Demo.env false) Demo.template_hook
                     Demo.approved Demo.world)
              Htpl body eq_refl) as [_ Hcalls'].
  split.
  - split; [exact Hmode|]. split; [exact Hmethod|]. split; [exact Hid|].
    rewrite Hcalls. split; reflexivity.
  - split; [exact Htpl|]. rewrite Hcalls'. reflexivity.
Defined.

(** C1, counterexample: the template of [HOOK-BROKEN] does
    not render to JSON, the exception of payload building leaves
    [_run_kafka_hook] and the entry point, nothing is logged and no
    audit record is written; the data of [HOOK-PLAIN] has no [id], the
    exception of the key determination leaves [_run_kafka_hook]. *)
Lemma payload_failure_is_not_caught :
  _run_kafka_hook (Demo.env false) Demo.broken_hook Demo.approved Demo.world
  = (Demo.world, Raise (Exn "JSONDecodeError" "Expecting value"))
  /\ run_kafka_hook (Demo.env false) "HOOK-BROKEN" (Some Demo.approved)
       "Sales Order" DLNone Demo.world
     = (Demo.world, Raise (Exn "JSONDecodeError" "Expecting value"))
  /\ error_log Demo.world = [] /\ request_log Demo.world = []
  /\ _run_kafka_hook (Demo.env false) Demo.plain_hook Demo.approved Demo.world
     = (Demo.world,
        Raise (Exn "AttributeError" "object has no attribute 'id'")).
Proof. repeat split; reflexivity. Qed.

(** The broker is down for the topic of [HOOK-DOWN]: the failure is
    logged, the audit record has the prefixed topic and no response. *)
Lemma send_failure_is_caught_witness :
  let data := <["data" := VDict [("id", VStr "DOC-0001")]]>
                (<["proto_obj" := VNone]> (∅ : gmap string value)) in
  let e := Exn "KafkaException" "broker transport failure" in
  get_webhook_data (Demo.env false) Demo.approved Demo.down_hook Demo.world
  = (Demo.world, Ok data)
  /\ partition_key Demo.down_hook data Demo.world
     = (Demo.world, Ok (VNone, VNone))
  /\ send_kafka (Demo.env false) "Kafka Main" "down" VNone
       (dict_get data "data") (dict_get data "proto_obj") VNone = Raise e
  /\ snd (_run_kafka_hook (Demo.env false) Demo.down_hook Demo.approved
            Demo.world) = Ok tt
  /\ error_log (fst (_run_kafka_hook (Demo.env false) Demo.down_hook
                       Demo.approved Demo.world))
     = [LogArgs "broker transport failure"
          "Traceback (most recent call last): KafkaException"]
  /\ request_log (fst (_run_kafka_hook (Demo.env false) Demo.down_hook
                         Demo.approved Demo.world))
     = [{| req_topic := "Error: down"; req_settings := "Kafka Main";
           req_data := VDict [("id", VStr "DOC-0001")];
           req_response := VNone |}].
Proof.
  intros data e.
  assert (Hdata : get_webhook_data (Demo.env false) Demo.approved
                    Demo.down_hook Demo.world = (Demo.world, Ok data))
    by reflexivity.
  assert (Hkey : partition_key Demo.down_hook data Demo.world
                 = (Demo.world, Ok (VNone, VNone))) by reflexivity.
  assert (Hsend : send_kafka (Demo.env false) (kafka_settings Demo.down_hook)
                    (kafka_topic Demo.down_hook) VNone
                    (dict_get data "data") (dict_get data "proto_obj") VNone
                  = Raise e) by reflexivity.
  split; [exact Hdata|]. split; [exact Hkey|]. split; [exact Hsend|].
  rewrite (proj1 (send_failure_is_caught (Demo.env false) Demo.down_hook
                    Demo.approved Demo.world)
             data VNone VNone e Hdata Hkey Hsend).
  repeat split; reflexivity.
Defined.



(** A batch of three names whose second does not resolve: outside a
    request the failure is logged and the third name is processed; in a
    request the failure leaves the entry point after the first name. *)
Lemma resolution_failure_in_batch_witness :
  let e := Exn "DoesNotExistError" "Sales Order DOC-0009 not found" in
  let batch := DLList (["DOC-0001"] ++ "DOC-0009" :: ["DOC-0002"]) in
  let w1 := fst (run_kafka_hook (Demo.env false) "HOOK-TPL" None "Sales Order"
                   (DLList ["DOC-0001"]) Demo.world) in
  get_doc (Demo.env false) "Sales Order" "DOC-0009" = Raise e
  /\ request (Demo.env false) = false
  /\ request (Demo.env true) = true
  /\ snd (run_kafka_hook (Demo.env false) "HOOK-TPL" None "Sales Order" batch
            Demo.world) = Ok tt
  /\ run_kafka_hook (Demo.env false) "HOOK-TPL" None "Sales Order" batch
       Demo.world
     = run_kafka_hook (Demo.env false) "HOOK-TPL" None "Sales Order"
         (DLList ["DOC-0002"])
         (set_error_log
            (error_log w1 ++ [LogTitle "Error running Kafka Hook"]) w1)
  /\ (req_data <$> request_log
        (fst (run_kafka_hook (Demo.env false) "HOOK-TPL" None "Sales Order"
                batch Demo.world)))
     = [VDict [("id", VStr "DOC-0001")]; VDict [("id", VStr "DOC-0002")]]
  /\ run_kafka_hook (Demo.env true) "HOOK-TPL" None "Sales Order" batch
       Demo.world = (w1, Raise e).
Proof.
  intros e batch w1.
  assert (Hdoc : get_doc (Demo.env false) "Sales Order" "DOC-0009" = Raise e)
    by reflexivity.
  destruct (resolution_failure_in_batch (Demo.env false) "HOOK-TPL"
              Demo.template_hook "Sales Order" ["DOC-0001"] "DOC-0009"
              ["DOC-0002"] Demo.world w1 e eq_refl eq_refl Hdoc)
    as [_ Hbackground].
  destruct (resolution_failure_in_batch (Demo.env true) "HOOK-TPL"
              Demo.template_hook "Sales Order" ["DOC-0001"] "DOC-0009"
              ["DOC-0002"] Demo.world w1 e eq_refl eq_refl Hdoc)
    as [Hrequest _].
  destruct (Hbackground eq_refl) as [Hcontinue Hreturns].
  split; [exact Hdoc|]. split; [reflexivity|]. split; [reflexivity|].
  split; [exact Hreturns|]. split; [exact Hcontinue|].
  split; [reflexivity|]. exact (Hrequest eq_refl).
Defined.

(** A unit of work on [DOC-0001]: [on_update] twice, then [on_change]
    twice.  [HOOK-TPL] and [HOOK-METHOD] are queued once each. *)
Lemma dedup_per_unit_of_work_witness :
  let steps := [DocEvent Demo.approved "on_update";
                DocEvent Demo.approved "on_update";
                DocEvent Demo.approved "on_change";
                DocEvent Demo.approved "on_change"] in
  fresh_unit Demo.world
  /\ (forall h d,
        task_count h d (queue (run_unit (Demo.env true) steps Demo.world)) <= 1)
  /\ (task_kafka_hook_name <$> queue (run_unit (Demo.env true) steps Demo.world))
     = ["HOOK-TPL"; "HOOK-METHOD"].
Proof.
  intros steps.
  assert (Hfresh : fresh_unit Demo.world) by (split; reflexivity).
  split; [exact Hfresh|].
  split; [|reflexivity].
  exact (proj1 (dedup_per_unit_of_work (Demo.env true) steps Demo.world Hfresh)).
Defined.



(** The cache of the first world is empty: the first call queries the
    store and groups the four enabled definitions under [Sales Order];
    the second call answers from the cache; a save of a definition
    evicts the entry. *)
Lemma registry_cache_witness :
  cache Demo.world !! "kafkahook" = None
  /\ (exists reg,
        fetch_webhooks_from_redis Demo.world
        = (set_cache (<["kafkahook" := reg]> (cache Demo.world))
             (set_store_queries 1 Demo.world), Ok reg)
        /\ forall dt, reg !! dt = grouping_of Demo.hooks dt)
  /\ (HookRow.name <$> default [] (grouping_of Demo.hooks "Sales Order"))
     = ["HOOK-TPL"; "HOOK-METHOD"; "HOOK-DOWN"; "HOOK-BROKEN"]
  /\ grouping_of Demo.hooks "ToDo" = None
  /\ fetch_webhooks_from_redis (fst (fetch_webhooks_from_redis Demo.world))
     = (fst (fetch_webhooks_from_redis Demo.world),
        snd (fetch_webhooks_from_redis Demo.world))
  /\ cache (fst (run_step (Demo.env true) (SaveDefinition Demo.template_hook)
                   (fst (fetch_webhooks_from_redis Demo.world))))
       !! "kafkahook" = None.
Proof.
  assert (Hmiss : cache Demo.world !! "kafkahook" = None) by reflexivity.
  pose (w1 := fst (fetch_webhooks_from_redis Demo.world)).
  pose (w2 := fst (run_step (Demo.env true) (SaveDefinition Demo.template_hook)
                     w1)).
  split; [exact Hmiss|].
  split.
  { exact (proj1 (registry_cache (Demo.env true) Demo.world Demo.template_hook)
             Hmiss). }
  split; [reflexivity|]. split; [reflexivity|].
  split.
  { exact (proj1 (proj2 (proj2 (registry_cache (Demo.env true) Demo.world
                                  Demo.template_hook))) w1 eq_refl). }
  exact (proj1 (proj2 (proj2 (proj2 (proj2
           (registry_cache (Demo.env true) w1 Demo.template_hook))))
           (SaveDefinition Demo.template_hook) w2
           (or_intror (or_introl eq_refl)) eq_refl)).
Defined.

(** * Further properties *)

(** ** The worker *)

Section WorkerMore.

Variable env : Env.

(** [_run_kafka_hook] either raises before the send, leaving the world
    as it is, or gets to the send with a payload and a key. *)
Lemma run_kafka_hook_outcome hook doc w :
  (exists e, _run_kafka_hook env hook doc w = (w, Raise e))
  \/ (exists data key flag,
        get_webhook_data env doc hook w = (w, Ok data)
        /\ partition_key hook data w = (w, Ok (key, flag))
        /\ _run_kafka_hook env hook doc w
           = send_and_log env hook data key flag w).
Proof.
  pose proof (get_webhook_data_world env doc hook w) as Hw.
  destruct (get_webhook_data env doc hook w) as [w1 [data|e]] eqn:Hdata;
    simpl in Hw; subst w1.
  - pose proof (partition_key_world hook data w) as Hw.
    destruct (partition_key hook data w) as [w1 [[key flag]|e]] eqn:Hkey;
      simpl in Hw; subst w1.
    + right. exists data, key, flag. split_and!; [done|done|].
      by apply run_kafka_hook_steps.
    + left. exists e. by eapply run_kafka_hook_key_raise.
  - left. exists e. by apply run_kafka_hook_payload_raise.
Qed.

(** The send writes to the logs of the worker only, one call and one
    audit record, and no entry with a title. *)
Lemma send_and_log_effects hook data key flag w :
  let w' := fst (send_and_log env hook data key flag w) in
  same_matcher_state w w'
  /\ kafka_calls w' = kafka_calls w ++ [the_call hook data key flag]
  /\ length (request_log w') = S (length (request_log w))
  /\ title_count (error_log w') = title_count (error_log w).
Proof.
  destruct (send_kafka env (kafka_settings hook) (kafka_topic hook) key
              (dict_get data "data") (dict_get data "proto_obj") flag)
    as [r|e] eqn:Hsend.
  - rewrite (send_and_log_ok _ _ _ _ _ _ _ Hsend). simpl.
    split_and!; try done. rewrite length_app. simpl. lia.
  - rewrite (send_and_log_raise _ _ _ _ _ _ _ Hsend). simpl.
    split_and!; try done.
    + rewrite length_app. simpl. lia.
    + unfold title_count. rewrite List.filter_app, length_app. simpl. lia.
Qed.

(** X1. With the payload and the key built and an answer [r] of the
    broker, [_run_kafka_hook] makes the one call, writes one audit
    record with the topic as it is, the settings, the data and
    [str(r)], and writes nothing to the error log. *)
Theorem successful_send_is_audited (hook : KafkaHook) (doc : Document.t)
    (w : World) (data : gmap string value) (key flag r : value) :
  get_webhook_data env doc hook w = (w, Ok data) ->
  partition_key hook data w = (w, Ok (key, flag)) ->
  send_kafka env (kafka_settings hook) (kafka_topic hook) key
    (dict_get data "data") (dict_get data "proto_obj") flag = Ok r ->
  _run_kafka_hook env hook doc w
  = (set_request_log (request_log w ++ [success_entry env hook data r])
       (set_kafka_calls (kafka_calls w ++ [the_call hook data key flag]) w),
     Ok tt).
Proof.
  intros Hdata Hkey Hsend.
  rewrite (run_kafka_hook_steps _ _ _ _ _ _ _ Hdata Hkey).
  by apply send_and_log_ok.
Qed.

(** X2. In Method mode with the method set, when the [data] the method
    returns is not an object with an attribute [id] (a plain dict, or
    no [data] at all), [_run_kafka_hook] raises [AttributeError] before
    the send: the broker is not called and nothing is logged. *)
Theorem data_without_id_is_not_sent (hook : KafkaHook) (doc : Document.t)
    (w : World) (f : Document.t -> result (gmap string value))
    (data : gmap string value) :
  process_data hook = "Method" ->
  webhook_method hook <> EmptyString ->
  get_attr env (webhook_method hook) = Ok f ->
  f doc = Ok data ->
  has_no_id (dict_get data "data") ->
  _run_kafka_hook env hook doc w
  = (w, Raise (Exn "AttributeError" "object has no attribute 'id'")).
Proof.
  intros Hmode Hmethod Hattr Hf Hno.
  eapply run_kafka_hook_key_raise.
  - unfold get_webhook_data. rewrite bool_decide_eq_true_2 by done.
    unfold bind, lift. by rewrite Hattr, Hf.
  - unfold partition_key, truthy_str.
    rewrite bool_decide_eq_true_2 by done.
    rewrite (bool_decide_eq_false_2 _ Hmethod). simpl.
    unfold bind, lift, getattr_id.
    destruct (dict_get data "data") as [| | | | | |attrs] eqn:Hd; try done.
    destruct (assoc "id" attrs) as [k|] eqn:Hk; [|done].
    by destruct (Hno attrs k).
Qed.

(** One turn of the loop over the names: outside a request it returns;
    either it has logged a title and neither called the broker nor
    written an audit record, or it has called the broker once, written
    one audit record and logged no title. *)
Lemma run_doc_list_turn hook doctype n w :
  exists w',
    run_doc_list env hook false doctype [n] w = (w', Ok tt)
    /\ same_matcher_state w w'
    /\ ((kafka_calls w' = kafka_calls w
         /\ request_log w' = request_log w
         /\ error_log w' = error_log w ++ [LogTitle "Error running Kafka Hook"])
        \/ (length (kafka_calls w') = S (length (kafka_calls w))
            /\ length (request_log w') = S (length (request_log w))
            /\ title_count (error_log w') = title_count (error_log w))).
Proof.
  assert (Hlog : forall e,
    log_error (LogTitle "Error running Kafka Hook") w
    = (set_error_log (error_log w ++ [LogTitle "Error running Kafka Hook"]) w,
       Ok tt)) by done.
  unfold run_doc_list. rewrite for_each_cons.
  destruct (get_doc env doctype n) as [doc|e] eqn:Hdoc.
  - destruct (run_kafka_hook_outcome hook doc w)
      as [(e & Hrun)|(data & key & flag & _ & _ & Hrun)].
    + erewrite try_except_raise;
        [|unfold bind, lift; exact Hrun].
      eexists. split; [reflexivity|]. split; [done|]. by left.
    + pose proof (send_and_log_effects hook data key flag w) as Heff.
      pose proof (send_and_log_returns env hook data key flag w) as [Hret _].
      destruct (send_and_log env hook data key flag w) as [w1 [[]|e]] eqn:Hs;
        [|done]. simpl in Heff.
      erewrite try_except_ok;
        [|unfold bind, lift; rewrite Hrun; reflexivity].
      exists w1. split; [done|].
      destruct Heff as (Hm & Hc & Hr & Ht). split; [done|]. right.
      rewrite Hc, length_app. simpl. split_and!; [lia|done|done].
  - erewrite try_except_raise;
      [|unfold bind, lift; reflexivity].
    eexists. split; [reflexivity|]. split; [done|]. by left.
Qed.

Lemma run_doc_list_cons hook req doctype n l w :
  run_doc_list env hook req doctype (n :: l) w
  = match run_doc_list env hook req doctype [n] w with
    | (w', Ok _) => run_doc_list env hook req doctype l w'
    | (w', Raise e) => (w', Raise e)
    end.
Proof.
  unfold run_doc_list. rewrite !for_each_cons.
  destruct (try_except _ _ w) as [w' [[]|e]]; done.
Qed.

Lemma same_matcher_state_trans w1 w2 w3 :
  same_matcher_state w1 w2 -> same_matcher_state w2 w3 ->
  same_matcher_state w1 w3.
Proof.
  unfold same_matcher_state. intros (?&?&?&?&?) (?&?&?&?&?).
  split_and!; congruence.
Qed.

(** X3. Outside a request, a batch accounts for every name: for each
    name either the broker is called once and one audit record is
    written, or one error-log entry titled [Error running Kafka Hook]
    is written; so the calls and the titled entries added sum to the
    number of names, and as many audit records as calls are added. *)
Theorem background_batch_accounts_for_every_name (name : string)
    (hook : KafkaHook) (doctype : string) (l : list string) (w : World) :
  request env = false ->
  get_cached_doc env name = Ok hook ->
  let w' := fst (run_kafka_hook env name None doctype (DLList l) w) in
  length (kafka_calls w') + title_count (error_log w')
  = length (kafka_calls w) + title_count (error_log w) + length l
  /\ length (request_log w') + length (kafka_calls w)
     = length (request_log w) + length (kafka_calls w').
Proof.
  intros Hreq Hhook. rewrite (run_kafka_hook_list _ _ _ _ _ _ Hhook), Hreq.
  revert w. induction l as [|n l IH]; intros w; [simpl; lia|].
  rewrite run_doc_list_cons.
  destruct (run_doc_list_turn hook doctype n w) as (w1 & -> & _ & Hturn).
  specialize (IH w1). simpl in IH. simpl.
  destruct Hturn as [(Hc & Hr & He)|(Hc & Hr & Ht)].
  - rewrite Hc, Hr in IH. rewrite He in IH. unfold title_count in IH at 2.
    rewrite List.filter_app, length_app in IH. simpl in IH.
    fold (title_count (error_log w)) in IH. lia.
  - lia.
Qed.

(** X4. The worker writes to its own logs only: whatever its
    arguments, [run_kafka_hook] leaves the queue, the flags, the cache
    and the store as they are. *)
Theorem worker_leaves_matcher_state (name : string)
    (doc : option Document.t) (doctype : string) (dl : doc_list_arg)
    (w : World) :
  same_matcher_state w (fst (run_kafka_hook env name doc doctype dl w)).
Proof.
  assert (Hrefl : forall v, same_matcher_state v v) by done.
  assert (Hone : forall hook d v,
            same_matcher_state v (fst (_run_kafka_hook env hook d v))).
  { intros hook d v.
    destruct (run_kafka_hook_outcome hook d v)
      as [(e & ->)|(data & key & flag & _ & _ & ->)]; [done|].
    apply send_and_log_effects. }
  assert (Hloop : forall hook req l v,
            same_matcher_state v (fst (run_doc_list env hook req doctype l v))).
  { intros hook req l v. unfold run_doc_list.
    destruct (for_each _ l v) as [v' r] eqn:Hfor. simpl.
    eapply (for_each_preserves (same_matcher_state v)) in Hfor; [done| |done].
    intros n u u' r' Hu. unfold try_except, bind, lift.
    destruct (get_doc env doctype n) as [d|e].
    - pose proof (Hone hook d u) as H1.
      destruct (_run_kafka_hook env hook d u) as [u1 [[]|e]]; simpl in H1.
      + intros [= <- <-]. by eapply same_matcher_state_trans.
      + destruct req; unfold raise, log_error, modify; intros [= <- <-];
          eapply same_matcher_state_trans; try exact Hu;
          eapply same_matcher_state_trans; try exact H1; done.
    - destruct req; unfold raise, log_error, modify; intros [= <- <-];
        eapply same_matcher_state_trans; try exact Hu; done. }
  unfold run_kafka_hook, bind, lift.
  destruct (get_cached_doc env name) as [hook|e]; [|done].
  destruct doc as [d|]; [apply Hone|].
  destruct dl as [|s|l]; [done|apply Hloop|apply Hloop].
Qed.

(** X5. In a batch a failure of payload building or of the key is
    handled as a failure of resolution is: when the loop has got
    through the names before [n], [n] resolves and [_run_kafka_hook]
    raises on its document, a request lets the exception through, and
    outside a request a titled entry is logged, no audit record is
    written for [n], and the loop goes on. *)
Theorem payload_failure_in_batch (name : string) (hook : KafkaHook)
    (doctype : string) (pre : list string) (n : string)
    (rest : list string) (doc : Document.t) (w w1 : World) (e : exn) :
  get_cached_doc env name = Ok hook ->
  run_kafka_hook env name None doctype (DLList pre) w = (w1, Ok tt) ->
  get_doc env doctype n = Ok doc ->
  snd (_run_kafka_hook env hook doc w1) = Raise e ->
  (request env = true ->
   run_kafka_hook env name None doctype (DLList (pre ++ n :: rest)) w
   = (w1, Raise e))
  /\
  (request env = false ->
   run_kafka_hook env name None doctype (DLList (pre ++ n :: rest)) w
   = run_kafka_hook env name None doctype (DLList rest)
       (set_error_log
          (error_log w1 ++ [LogTitle "Error running Kafka Hook"]) w1)).
Proof.
  intros Hhook Hpre Hdoc Hraise.
  rewrite !(run_kafka_hook_list _ _ _ _ _ _ Hhook) in *.
  unfold run_doc_list in *.
  rewrite (for_each_app _ _ _ _ _ Hpre), for_each_cons.
  unfold try_except at 1 3. unfold bind at 1 3, lift at 1 3. rewrite Hdoc.
  destruct (run_kafka_hook_outcome hook doc w1)
    as [(e' & Hrun)|(data & key & flag & _ & _ & Hrun)].
  - rewrite Hrun in *. simpl in Hraise. injection Hraise as ->.
    split; intros Hreq; rewrite Hreq; done.
  - rewrite Hrun in Hraise.
    pose proof (send_and_log_returns env hook data key flag w1) as [Hret _].
    congruence.
Qed.

(** X6. The arguments of the entry point: a hook that does not resolve
    fails the call before anything else, whatever the other arguments;
    with a document the list and the entity type are not looked at; a
    single name is a list of one name; an empty list does nothing; and
    with neither a document nor a list the call raises [TypeError]. *)
Theorem entry_point_arguments (name : string) (doctype : string)
    (w : World) :
  (forall e doc dl,
     get_cached_doc env name = Raise e ->
     run_kafka_hook env name doc doctype dl w = (w, Raise e))
  /\ (forall doc doctype' dl dl',
        run_kafka_hook env name (Some doc) doctype dl w
        = run_kafka_hook env name (Some doc) doctype' dl' w)
  /\ (forall s,
        run_kafka_hook env name None doctype (DLStr s) w
        = run_kafka_hook env name None doctype (DLList [s]) w)
  /\ (forall hook,
        get_cached_doc env name = Ok hook ->
        run_kafka_hook env name None doctype (DLList []) w = (w, Ok tt)
        /\ run_kafka_hook env name None doctype DLNone w
           = (w, Raise (Exn "TypeError" "'NoneType' object is not iterable"))).
Proof.
  split_and!.
  - intros e doc dl H. unfold run_kafka_hook, bind, lift. by rewrite H.
  - done.
  - done.
  - intros hook H. unfold run_kafka_hook, bind, lift. by rewrite H.
Qed.

End WorkerMore.

(** ** The matcher *)

Section MatcherMore.

Variable env : Env.

(** A pass that gets past the guards runs the loop over the rows the
    memoised registry has for the entity type; the registry is the one
    of the flags when they hold one, and is fetched otherwise. *)
Lemma run_webhooks_enters_loop doc method w :
  suppressed w = false ->
  method ∈ event_list (Document.in_insert doc) ->
  exists w1 reg,
    run_webhooks env doc method w
    = for_each (webhook_body env doc method)
        (default [] (reg !! Document.doctype doc)) w1
    /\ initialised w1
    /\ kafkahook (flags w1) = Some reg
    /\ queue w1 = queue w
    /\ (forall d, executed_for w1 d = executed_for w d)
    /\ same_worker_state w w1
    /\ store w1 = store w
    /\ suppressed w1 = false
    /\ (forall reg0, kafkahook (flags w) = Some reg0 ->
          reg = reg0 /\ cache w1 = cache w
          /\ store_queries w1 = store_queries w)
    /\ (kafkahook (flags w) = None ->
          fetch_webhooks_from_redis w
          = (set_store_queries (store_queries w1) (set_cache (cache w1) w),
             Ok reg)).
Proof.
  intros Hsup Hev.
  remember (run_webhooks env doc method w) as R eqn:HR.
  unfold run_webhooks in HR. unfold bind at 1, get_world in HR.
  cbv beta iota in HR.
  change (in_import (flags w) || in_patch (flags w) || in_install (flags w)
          || in_migrate (flags w)) with (suppressed w) in HR.
  rewrite Hsup in HR. rewrite bool_decide_eq_true_2 in HR by done.
  simpl in HR.
  unfold executed_for, initialised, same_worker_state.
  cbv [bind ret modify get_world] in HR.
  unfold fetch_webhooks_from_redis, cache_get_value.
  cbv [bind ret modify get_world generate_kafkahook get_all_enabled].
  unfold fetch_webhooks_from_redis, cache_get_value in HR.
  cbv [bind ret modify get_world generate_kafkahook get_all_enabled] in HR.
  unfold suppressed in *.
  destruct (kafkahook_executed (flags w)) as [ex|] eqn:Hex;
    simpl in HR;
    destruct (kafkahook (flags w)) as [reg|] eqn:Hreg;
    simpl in HR;
    try destruct (cache w !! "kafkahook") as [val|] eqn:Hc;
    simpl in HR; rewrite ?Hreg in HR;
    match type of HR with
    | _ = (match ?reg' !! _ with _ => _ end) ?w1 =>
        exists w1, reg';
        split;
        [rewrite HR; destruct (reg' !! Document.doctype doc) as [[|]|];
         reflexivity|];
        simpl; rewrite ?Hex, ?Hreg;
        split_and!; try done; try (by intros ? [= <-]);
        try (destruct w; reflexivity)
    end.
Qed.


Lemma run_webhooks_noop doc method w :
  suppressed w = true \/ method ∉ event_list (Document.in_insert doc) ->
  run_webhooks env doc method w = (w, Ok tt).
Proof.
  intros H. unfold run_webhooks, bind at 1, get_world. cbv beta iota.
  change (in_import (flags w) || in_patch (flags w) || in_install (flags w)
          || in_migrate (flags w)) with (suppressed w).
  destruct (suppressed w); [done|]. destruct H as [|H]; [done|].
  by rewrite bool_decide_eq_false_2.
Qed.

(** A turn of the loop writes the queue and the recorded names only. *)
Lemma body_step_frame doc method row w w' r :
  body_step env doc method row w w' r ->
  kafkahook (flags w') = kafkahook (flags w)
  /\ cache w' = cache w /\ store w' = store w
  /\ store_queries w' = store_queries w
  /\ same_worker_state w w'
  /\ suppressed w' = suppressed w.
Proof. destruct 1; by split_and!. Qed.

Lemma loop_frame doc method rows w w' r :
  initialised w ->
  for_each (webhook_body env doc method) rows w = (w', r) ->
  kafkahook (flags w') = kafkahook (flags w)
  /\ cache w' = cache w /\ store w' = store w
  /\ store_queries w' = store_queries w
  /\ same_worker_state w w'
  /\ suppressed w' = suppressed w.
Proof.
  intros Hinit Hloop.
  eapply (for_each_preserves
            (fun v => initialised v
                      /\ kafkahook (flags v) = kafkahook (flags w)
                      /\ cache v = cache w /\ store v = store w
                      /\ store_queries v = store_queries w
                      /\ same_worker_state w v
                      /\ suppressed v = suppressed w)) in Hloop.
  - by destruct Hloop as [_ ?].
  - intros row v v' r' (Hi & H1 & H2 & H3 & H4 & H5 & H6) Hb.
    apply webhook_body_step in Hb; [|done].
    split; [by eapply body_step_initialised|].
    destruct (body_step_frame _ _ _ _ _ _ Hb)
      as (F1 & F2 & F3 & F4 & (F5 & F6 & F7) & F8).
    destruct H5 as (G5 & G6 & G7).
    unfold same_worker_state. split_and!; congruence.
  - by split_and!.
Qed.

Lemma loop_executed_mono doc method rows w w' r h d :
  initialised w ->
  for_each (webhook_body env doc method) rows w = (w', r) ->
  h ∈ executed_for w d -> h ∈ executed_for w' d.
Proof.
  intros Hinit Hloop Hh.
  eapply (for_each_preserves
            (fun v => initialised v /\ h ∈ executed_for v d)) in Hloop.
  - by destruct Hloop.
  - intros row v v' r' [Hi Hv] Hb. apply webhook_body_step in Hb; [|done].
    split; [by eapply body_step_initialised|by eapply body_step_executed_mono].
  - done.
Qed.

(** The tasks a loop queues are those of a sublist of its rows, in the
    order of the rows; each of them has the incoming event and a
    condition that holds. *)
Lemma loop_fired doc method rows w w' r :
  initialised w ->
  for_each (webhook_body env doc method) rows w = (w', r) ->
  exists fired,
    sublist fired rows
    /\ queue w' = queue w ++ ((fun row => task_for doc (HookRow.name row)) <$> fired)
    /\ Forall (fun row => HookRow.webhook_docevent row = method
                          /\ satisfied env doc row) fired.
Proof.
  revert w. induction rows as [|row rows IH]; intros w Hinit; simpl.
  - intros [= <- <-]. exists []. split_and!; [done| |done].
    by rewrite app_nil_r.
  - unfold bind.
    destruct (webhook_body env doc method row w) as [w1 [[]|e]] eqn:Hb;
      apply webhook_body_step in Hb; try done.
    + intros Hrest.
      assert (Hinit1 : initialised w1) by by eapply body_step_initialised.
      destruct (IH w1 Hinit1 Hrest) as (fired & Hsub & Hq & Hall).
      inversion Hb as [Hnot|v Hel Hc Hev Hv|?|[Hevent Hnotin] Hsat]; subst.
      * exists fired. split_and!; [by apply sublist_cons|done|done].
      * exists fired. split_and!; [by apply sublist_cons|done|done].
      * exists (row :: fired). split_and!; [by apply sublist_skip| |].
        -- rewrite Hq, queue_dispatched, fmap_cons, <- app_assoc. done.
        -- by constructor.
    + intros [= <- <-].
      inversion Hb; subst. exists []. split_and!; [apply sublist_nil_l| |done].
      simpl. by rewrite app_nil_r.
Qed.

(** In a loop that returns, every row with the incoming event and a
    condition that holds ends up recorded for the document. *)
Lemma loop_complete doc method rows w w' :
  initialised w ->
  for_each (webhook_body env doc method) rows w = (w', Ok tt) ->
  forall row, row ∈ rows ->
    HookRow.webhook_docevent row = method -> satisfied env doc row ->
    HookRow.name row ∈ executed_for w' (Document.name doc).
Proof.
  revert w. induction rows as [|x rows IH]; intros w Hinit Hloop row Hin;
    [by apply elem_of_nil in Hin|].
  simpl in Hloop. unfold bind in Hloop.
  destruct (webhook_body env doc method x w) as [w1 [[]|e]] eqn:Hb;
    [|done].
  apply webhook_body_step in Hb; [|done].
  assert (Hinit1 : initialised w1) by by eapply body_step_initialised.
  apply elem_of_cons in Hin as [->|Hin]; [|by eapply IH].
  intros Hevent Hsat.
  eapply loop_executed_mono; [exact Hinit1|exact Hloop|].
  inversion Hb as [Hnot|v Hel Hc Hev Hv|?|[_ Hnotin] _]; subst.
  - destruct (decide (HookRow.name x ∈ executed_for w1 (Document.name doc)));
      [done|]. by destruct Hnot.
  - destruct Hsat as [?|(v' & Hev' & Hv')]; [done|congruence].
  - rewrite executed_for_dispatched, decide_True by done.
    apply elem_of_app. right. by apply list_elem_of_singleton.
Qed.

(** X7. What a pass queues: the tasks added to the queue are, in the
    order of the registry, those of rows the memoised registry holds
    for the entity type of the document; each carries the document
    itself and the name of a row whose event is the incoming one and
    whose condition holds; and tasks are added only when the flags do
    not suppress the matcher and the event is applicable. *)
Theorem dispatch_soundness (doc : Document.t) (method : string) (w : World) :
  let w' := fst (run_webhooks env doc method w) in
  exists fired,
    queue w' = queue w ++ ((fun row => task_for doc (HookRow.name row)) <$> fired)
    /\ Forall (fun row => HookRow.webhook_docevent row = method
                          /\ satisfied env doc row) fired
    /\ (forall reg, kafkahook (flags w') = Some reg ->
          sublist fired (default [] (reg !! Document.doctype doc)))
    /\ (fired <> [] ->
        suppressed w = false
        /\ method ∈ event_list (Document.in_insert doc)).
Proof.
  destruct (suppressed w) eqn:Hsup.
  { rewrite run_webhooks_noop by auto. exists []. simpl.
    split_and!; [by rewrite app_nil_r|done|intros; apply sublist_nil_l|done]. }
  destruct (decide (method ∈ event_list (Document.in_insert doc))) as [Hev|Hev].
  2:{ rewrite run_webhooks_noop by auto. exists []. simpl.
      split_and!; [by rewrite app_nil_r|done|intros; apply sublist_nil_l|done]. }
  destruct (run_webhooks_enters_loop doc method w Hsup Hev)
    as (w1 & reg & -> & Hinit & Hreg & Hq & _).
  destruct (for_each _ _ w1) as [w' r] eqn:Hloop. simpl.
  destruct (loop_fired _ _ _ _ _ _ Hinit Hloop) as (fired & Hsub & Hq' & Hall).
  destruct (loop_frame _ _ _ _ _ _ Hinit Hloop) as (Hk & _).
  exists fired. split_and!; [by rewrite Hq', Hq|done| |done].
  intros reg' Hreg'. rewrite Hk, Hreg in Hreg'. by injection Hreg' as <-.
Qed.

(** X8. When a pass returns: if the flags do not suppress the matcher
    and the event is applicable, every row the memoised registry holds
    for the entity type of the document, with the incoming event and a
    condition that holds, is recorded for the name of the document. *)
Theorem pass_completeness (doc : Document.t) (method : string)
    (w w' : World) :
  run_webhooks env doc method w = (w', Ok tt) ->
  suppressed w = false ->
  method ∈ event_list (Document.in_insert doc) ->
  exists reg,
    kafkahook (flags w') = Some reg
    /\ forall row,
         row ∈ default [] (reg !! Document.doctype doc) ->
         HookRow.webhook_docevent row = method ->
         satisfied env doc row ->
         HookRow.name row ∈ executed_for w' (Document.name doc).
Proof.
  intros Hrun Hsup Hev.
  destruct (run_webhooks_enters_loop doc method w Hsup Hev)
    as (w1 & reg & Hshape & Hinit & Hreg & _).
  rewrite Hshape in Hrun.
  destruct (loop_frame _ _ _ _ _ _ Hinit Hrun) as (Hk & _).
  exists reg. split; [by rewrite Hk|].
  by eapply loop_complete.
Qed.

(** X9. The matcher only queues: a pass calls no broker, writes no
    log and no audit record, and leaves the store as it is. *)
Theorem matcher_leaves_worker_state (doc : Document.t) (method : string)
    (w : World) :
  same_worker_state w (fst (run_webhooks env doc method w))
  /\ store (fst (run_webhooks env doc method w)) = store w.
Proof.
  destruct (suppressed w) eqn:Hsup.
  { by rewrite run_webhooks_noop by auto. }
  destruct (decide (method ∈ event_list (Document.in_insert doc))) as [Hev|Hev].
  2:{ by rewrite run_webhooks_noop by auto. }
  destruct (run_webhooks_enters_loop doc method w Hsup Hev)
    as (w1 & reg & -> & Hinit & _ & _ & _ & (H1 & H2 & H3) & Hst & _).
  destruct (for_each _ _ w1) as [w' r] eqn:Hloop. simpl.
  destruct (loop_frame _ _ _ _ _ _ Hinit Hloop)
    as (_ & _ & Hst' & _ & (G1 & G2 & G3) & _).
  unfold same_worker_state. split_and!; congruence.
Qed.

End MatcherMore.

(** ** A unit of work *)

Section UnitMore.

Variable env : Env.

Lemma definition_step_queries s w :
  (forall doc method, s <> DocEvent doc method) ->
  store_queries (fst (run_step env s w)) = store_queries w.
Proof.
  intros Hs. destruct s as [doc method|h|h|h]; [by destruct (Hs doc method)|..];
    simpl; unfold insert_definition, save_definition, delete_definition, bind.
  - pose proof (validate_world env h w) as Hv.
    destruct (validate env h w) as [w' [[]|e]]; simpl in *; by subst.
  - pose proof (validate_world env h w) as Hv.
    destruct (validate env h w) as [w' [[]|e]]; simpl in *; by subst.
  - done.
Qed.

(** X10. While the flags mark an import, a patch, an installation or
    a migration, nothing is queued and the flags stay as they are,
    whatever the events and the writes of definitions. *)
Theorem suppressed_unit_queues_nothing (steps : list unit_step) (w : World) :
  suppressed w = true ->
  queue (run_unit env steps w) = queue w
  /\ flags (run_unit env steps w) = flags w.
Proof.
  revert w. induction steps as [|s steps IH]; intros w Hsup; [done|].
  simpl.
  assert (Hstep : queue (fst (run_step env s w)) = queue w
                  /\ flags (fst (run_step env s w)) = flags w).
  { destruct s as [doc method|h|h|h].
    - simpl. by rewrite (run_webhooks_noop env) by auto.
    - by apply definition_step_frame.
    - by apply definition_step_frame.
    - by apply definition_step_frame. }
  destruct Hstep as [Hq Hf].
  destruct (IH (fst (run_step env s w))) as [Hq' Hf'].
  { unfold suppressed. by rewrite Hf. }
  split; congruence.
Qed.

Lemma name_count_app h l1 l2 :
  name_count h (l1 ++ l2) = name_count h l1 + name_count h l2.
Proof. unfold name_count. by rewrite List.filter_app, length_app. Qed.

(** X11. In a unit of work that starts with fresh flags, the recorded
    names mirror the queue: a hook name is queued for a document name
    as many times as it is recorded for it, so a name is recorded only
    when a task was queued and a task is queued only when its name is
    recorded. *)
Theorem recorded_names_mirror_queue (steps : list unit_step) (w : World) :
  fresh_unit w ->
  forall h d,
    task_count h d (queue (run_unit env steps w))
    = name_count h (executed_for (run_unit env steps w) d).
Proof.
  intros [Hflag Hq].
  apply (run_unit_preserves env
           (fun v => forall h d,
              task_count h d (queue v) = name_count h (executed_for v d))).
  - intros v v1 Hqv Hex Hv h d. rewrite Hqv, Hex. apply Hv.
  - intros doc method row v v' r Hstep Hv h d.
    destruct Hstep as [| | |[_ _] _]; auto.
    rewrite queue_dispatched, task_count_app, task_count_task_for.
    rewrite executed_for_dispatched, Hv.
    destruct (decide (Document.name doc = d)) as [Hd|Hd].
    + subst d. rewrite name_count_app. f_equal.
      unfold name_count. simpl. case_bool_decide as Hn.
      * by rewrite decide_True.
      * by rewrite decide_False by (intros [? _]; done).
    + rewrite decide_False by (intros [_ ?]; done). lia.
  - intros h d. rewrite Hq. unfold executed_for. rewrite Hflag. simpl.
    by rewrite lookup_empty.
Qed.

(** A step keeps a memoised registry and then makes no query; with no
    registry memoised it makes at most one query. *)
Lemma run_step_memo s w :
  (forall reg, kafkahook (flags w) = Some reg ->
     kafkahook (flags (fst (run_step env s w))) = Some reg
     /\ store_queries (fst (run_step env s w)) = store_queries w)
  /\ (kafkahook (flags w) = None ->
      (kafkahook (flags (fst (run_step env s w))) = None
       /\ store_queries (fst (run_step env s w)) = store_queries w)
      \/ (kafkahook (flags (fst (run_step env s w))) <> None
          /\ store_queries (fst (run_step env s w)) <= S (store_queries w))).
Proof.
  assert (Hdef : (forall doc method, s <> DocEvent doc method) ->
    flags (fst (run_step env s w)) = flags w
    /\ store_queries (fst (run_step env s w)) = store_queries w).
  { intros Hs. split; [by apply definition_step_frame|].
    by apply definition_step_queries. }
  destruct s as [doc method|h|h|h];
    try (destruct Hdef as [Hf Hn]; [done|]; rewrite Hf, Hn;
         split; [done|by left]).
  clear Hdef. simpl.
  destruct (suppressed w) eqn:Hsup.
  { rewrite (run_webhooks_noop env) by auto. simpl. split; [done|by left]. }
  destruct (decide (method ∈ event_list (Document.in_insert doc))) as [Hev|Hev].
  2:{ rewrite (run_webhooks_noop env) by auto. simpl. split; [done|by left]. }
  destruct (run_webhooks_enters_loop env doc method w Hsup Hev)
    as (w1 & reg & -> & Hinit & Hreg & _ & _ & _ & _ & _ & Hsome & Hnone).
  destruct (for_each _ _ w1) as [w' r] eqn:Hloop. simpl.
  destruct (loop_frame _ _ _ _ _ _ _ Hinit Hloop) as (Hk & _ & _ & Hn & _).
  rewrite Hk, Hn, Hreg. split.
  - intros reg0 Hreg0. destruct (Hsome reg0 Hreg0) as (-> & _ & ->). done.
  - intros Hnoreg. right. split; [done|].
    specialize (Hnone Hnoreg).
    destruct (cache w !! "kafkahook") as [val|] eqn:Hc.
    + rewrite (fetch_hit _ _ Hc) in Hnone.
      apply (f_equal (fun p => store_queries (fst p))) in Hnone.
      simpl in Hnone. lia.
    + destruct (fetch_miss w Hc) as (reg' & Hf & _). rewrite Hf in Hnone.
      apply (f_equal (fun p => store_queries (fst p))) in Hnone.
      simpl in Hnone. lia.
Qed.

(** X12. The registry is read once per unit of work: once the flags
    hold a registry, every later pass uses it and no later step
    queries the store, also after a write of a definition has evicted
    the cache; and a unit that starts without one makes at most one
    query. *)
Theorem registry_memoised_per_unit (steps : list unit_step) (w : World) :
  (forall reg, kafkahook (flags w) = Some reg ->
     kafkahook (flags (run_unit env steps w)) = Some reg
     /\ store_queries (run_unit env steps w) = store_queries w)
  /\ (kafkahook (flags w) = None ->
      store_queries (run_unit env steps w) <= S (store_queries w)).
Proof.
  assert (Hsome : forall steps w reg, kafkahook (flags w) = Some reg ->
     kafkahook (flags (run_unit env steps w)) = Some reg
     /\ store_queries (run_unit env steps w) = store_queries w).
  { clear steps w. induction steps as [|s steps IH]; intros w reg Hreg; [done|].
    simpl. destruct (proj1 (run_step_memo s w) reg Hreg) as [Hk Hn].
    destruct (IH _ reg Hk) as [Hk' Hn']. split; congruence. }
  split; [apply Hsome|].
  revert w. induction steps as [|s steps IH]; intros w Hnone; simpl; [lia|].
  destruct (proj2 (run_step_memo s w) Hnone) as [[Hk Hn]|[Hk Hn]].
  - specialize (IH _ Hk). lia.
  - destruct (kafkahook (flags (fst (run_step env s w)))) as [reg|] eqn:Hreg;
      [|done].
    destruct (Hsome steps _ reg Hreg) as [_ Hn']. lia.
Qed.

End UnitMore.

(** ** The registry and validation *)

Section RegistryMore.

Variable env : Env.

(** X13. What [generate_kafkahook] builds: under an entity type the
    rows are exactly those of the enabled definitions of that type, so
    a disabled definition is under no key and every enabled one is
    under its own type; no key holds an empty list; and the store is
    read, not written. *)
Theorem registry_holds_enabled_definitions (w : World) :
  exists reg,
    generate_kafkahook w = (set_store_queries (S (store_queries w)) w, Ok reg)
    /\ (forall dt rows, reg !! dt = Some rows ->
          rows <> []
          /\ forall row, row ∈ rows <->
               exists h, h ∈ store w /\ enabled h = true
                         /\ webhook_doctype h = dt /\ row = row_of h)
    /\ (forall h, h ∈ store w -> enabled h = true ->
          exists rows, reg !! webhook_doctype h = Some rows
                       /\ row_of h ∈ rows).
Proof.
  destruct (generate_kafkahook_ok w) as (reg & Hgen & Hreg).
  exists reg. split; [done|].
  assert (Hmem : forall dt row,
            row ∈ enabled_rows_for dt (store w) <->
            exists h, h ∈ store w /\ enabled h = true
                      /\ webhook_doctype h = dt /\ row = row_of h).
  { intros dt row. unfold enabled_rows_for. rewrite list_elem_of_fmap.
    split.
    - intros (h & -> & Hin). apply list_elem_of_In, List.filter_In in Hin.
      destruct Hin as [Hin Hb]. apply andb_true_iff in Hb as [He Hd].
      apply bool_decide_eq_true in Hd.
      exists h. split_and!; try done. by apply list_elem_of_In.
    - intros (h & Hin & He & Hd & ->). exists h. split; [done|].
      apply list_elem_of_In, List.filter_In. split; [by apply list_elem_of_In|].
      rewrite He. simpl. by apply bool_decide_eq_true. }
  split.
  - intros dt rows Hrows. rewrite Hreg in Hrows. unfold grouping_of in Hrows.
    destruct (enabled_rows_for dt (store w)) as [|r rs] eqn:Hen; [done|].
    injection Hrows as <-. split; [done|]. intros row. rewrite <- Hen.
    apply Hmem.
  - intros h Hin He.
    assert (Hrow : row_of h ∈ enabled_rows_for (webhook_doctype h) (store w)).
    { apply Hmem. by exists h. }
    rewrite Hreg. unfold grouping_of.
    destruct (enabled_rows_for (webhook_doctype h) (store w)) as [|r rs] eqn:Hen.
    + by apply elem_of_nil in Hrow.
    + by eexists.
Qed.

Lemma validate_docevent_ok_iff self w :
  snd (validate_docevent env self w) = Ok tt <-> docevent_ok env self.
Proof.
  unfold validate_docevent, docevent_ok, truthy_str, throw, raise, ret.
  case_bool_decide as Hdt; simpl; [by split; auto|].
  destruct (truthy (get_is_submittable env (webhook_doctype self))) eqn:Hsub;
    simpl; [by split; auto|].
  case_bool_decide as Hev; simpl.
  - split; [done|]. by intros [?|[?|?]].
  - split; auto.
Qed.

Lemma validate_condition_ok_iff self w :
  snd (validate_condition env self w) = Ok tt <->
  exists temp_doc,
    new_doc env (webhook_doctype self) = Ok temp_doc
    /\ (condition self = EmptyString
        \/ exists v, safe_eval env (condition self)
                       (context_with_doc (CDocument temp_doc)) = Ok v).
Proof.
  unfold validate_condition, truthy_str, try_except, throw, raise, bind,
    lift, ret.
  destruct (new_doc env (webhook_doctype self)) as [temp_doc|e]; simpl.
  2:{ split; [done|]. by intros (? & ? & _). }
  case_bool_decide as Hc; simpl.
  { split; [|done]. intros _. exists temp_doc. auto. }
  destruct (safe_eval env (condition self) _) as [v|e] eqn:Heval; simpl.
  - split; [|done]. intros _. exists temp_doc. split; [done|]. right.
    by exists v.
  - split; [done|]. intros (t & [= <-] & [?|[v Hv]]); [done|].
    congruence.
Qed.

Lemma validate_request_body_ok_iff self w :
  snd (validate_request_body env self w) = Ok tt <->
  validate_template env (webhook_json self) = Ok tt.
Proof. done. Qed.

(** X14. When [validate] accepts a definition: exactly when the test
    of the event passes (no entity type, a submittable type, or an
    event outside the three listed), a new document of the type can be
    made, the condition is empty or evaluates on that document without
    raising, whatever its value, and the template is valid.
    Validation writes nothing. *)
Theorem validate_accepts_iff (self : KafkaHook) (w : World) :
  fst (validate env self w) = w
  /\ (snd (validate env self w) = Ok tt <->
      docevent_ok env self
      /\ (exists temp_doc,
            new_doc env (webhook_doctype self) = Ok temp_doc
            /\ (condition self = EmptyString
                \/ exists v, safe_eval env (condition self)
                               (context_with_doc (CDocument temp_doc)) = Ok v))
      /\ validate_template env (webhook_json self) = Ok tt).
Proof.
  split; [apply validate_world|].
  rewrite <- (validate_docevent_ok_iff self w),
    <- (validate_condition_ok_iff self w),
    <- (validate_request_body_ok_iff self w).
  unfold validate, bind.
  pose proof (validate_docevent_world env self w) as H1.
  destruct (validate_docevent env self w) as [w1 [[]|e1]]; simpl in H1; subst;
    simpl; [|by split; [|intros (? & _)]].
  pose proof (validate_condition_world env self w) as H2.
  destruct (validate_condition env self w) as [w2 [[]|e2]]; simpl in H2; subst;
    simpl; [|by split; [|intros (_ & ? & _)]].
  split; [done|]. by intros (_ & _ & ?).
Qed.

(** X15. A condition that the evaluator rejects on a new document of
    the type is reported as a [ValidationError] with the message of the
    exception, when the test of the event has passed. *)
Theorem invalid_condition_is_rejected (self : KafkaHook) (w : World)
    (temp_doc : Document.t) (e : exn) :
  docevent_ok env self ->
  new_doc env (webhook_doctype self) = Ok temp_doc ->
  condition self <> EmptyString ->
  safe_eval env (condition self) (context_with_doc (CDocument temp_doc))
  = Raise e ->
  validate env self w = (w, Raise (Exn "ValidationError" (exn_msg e))).
Proof.
  intros Hd Hnew Hc Heval. unfold validate.
  assert (Hde : validate_docevent env self w = (w, Ok tt)).
  { unfold validate_docevent, truthy_str.
    destruct Hd as [Hd|[Hd|Hd]].
    - by rewrite (bool_decide_eq_true_2 _ Hd).
    - rewrite Hd. simpl. by destruct (negb _).
    - rewrite (bool_decide_eq_false_2 _ Hd), andb_false_r.
      by destruct (negb _). }
  rewrite (bind_ok _ _ _ _ _ Hde).
  apply bind_raise.
  unfold validate_condition, truthy_str, try_except, throw, raise, bind, lift.
  rewrite Hnew, (bool_decide_eq_false_2 _ Hc). simpl. by rewrite Heval.
Qed.

End RegistryMore.

(** ** From the matcher to the worker *)

Section Handoff.

Variable env : Env.

(** X16. A task that a pass queues carries the document of the event
    itself, and the worker that runs it publishes that document: with
    the hook resolved, running the task is [_run_kafka_hook] on the
    document as it was queued, no document is resolved by name, and no
    titled entry is written to the error log, whatever the broker and
    the payload builder do. *)
Theorem queued_task_runs_on_the_queued_document (doc : Document.t)
    (method : string) (w : World) (t : Task) :
  t ∈ queue (fst (run_webhooks env doc method w)) ->
  t ∈ queue w
  \/ (task_doc t = doc
      /\ task_after_commit t = true
      /\ forall v,
           title_count (error_log (fst (run_task env t v)))
           = title_count (error_log v)
           /\ forall hook,
                get_cached_doc env (task_kafka_hook_name t) = Ok hook ->
                run_task env t v = _run_kafka_hook env hook doc v).
Proof.
  intros Hin.
  assert (Hnew : exists fired,
    queue (fst (run_webhooks env doc method w))
    = queue w ++ ((fun row => task_for doc (HookRow.name row)) <$> fired)).
  { destruct (suppressed w) eqn:Hsup.
    { rewrite (run_webhooks_noop env) by auto. exists []. simpl.
      by rewrite app_nil_r. }
    destruct (decide (method ∈ event_list (Document.in_insert doc)))
      as [Hev|Hev].
    2:{ rewrite (run_webhooks_noop env) by auto. exists []. simpl.
        by rewrite app_nil_r. }
    destruct (run_webhooks_enters_loop env doc method w Hsup Hev)
      as (w1 & reg & -> & Hinit & _ & Hq & _).
    destruct (for_each _ _ w1) as [w' r] eqn:Hloop. simpl.
    destruct (loop_fired _ _ _ _ _ _ _ Hinit Hloop) as (fired & _ & Hq' & _).
    exists fired. by rewrite Hq', Hq. }
  destruct Hnew as (fired & Hq). rewrite Hq in Hin.
  apply elem_of_app in Hin as [Hin|Hin]; [by left|right].
  apply list_elem_of_fmap in Hin as (row & -> & _). simpl.
  split; [done|]. split; [done|]. intros v. unfold run_task. simpl.
  split.
  - unfold run_kafka_hook, bind, lift.
    destruct (get_cached_doc env (HookRow.name row)) as [hook|e]; [|done].
    destruct (run_kafka_hook_outcome env hook doc v)
      as [(e & ->)|(data & key & flag & _ & _ & ->)]; [done|].
    apply send_and_log_effects.
  - intros hook Hhook. by apply run_kafka_hook_doc.
Qed.

End Handoff.

(** ** The further properties on concrete inputs *)

(** The broker answers for the topic [orders]: one call, one audit
    record with the answer, an empty error log. *)
Lemma successful_send_is_audited_witness :
  let data := <["data" := VDict [("id", VStr "DOC-0001")]]>
                (<["proto_obj" := VNone]> (∅ : gmap string value)) in
  let w' := fst (_run_kafka_hook (Demo.env false) Demo.template_hook
                   Demo.approved Demo.world) in
  send_kafka (Demo.env false) "Kafka Main" "orders" VNone
    (dict_get data "data") (dict_get data "proto_obj") VNone
  = Ok (VStr "ack:orders")
  /\ request_log w'
     = [{| req_topic := "orders"; req_settings := "Kafka Main";
           req_data := VDict [("id", VStr "DOC-0001")];
           req_response := VStr "ack:orders" |}]
  /\ error_log w' = []
  /\ length (kafka_calls w') = 1.
Proof.
  intros data w'.
  assert (Hsend : send_kafka (Demo.env false)
                    (kafka_settings Demo.template_hook)
                    (kafka_topic Demo.template_hook) VNone
                    (dict_get data "data") (dict_get data "proto_obj") VNone
                  = Ok (VStr "ack:orders")) by reflexivity.
  split; [exact Hsend|]. subst w'.
  rewrite (successful_send_is_audited (Demo.env false) Demo.template_hook
             Demo.approved Demo.world data VNone VNone (VStr "ack:orders")
             eq_refl eq_refl Hsend).
  repeat split; reflexivity.
Defined.

(** The method of [HOOK-PLAIN] returns a plain dict as [data]. *)
Lemma data_without_id_is_not_sent_witness :
  let data := <["data" := VDict [("todo", VStr "DOC-0001")]]>
                (∅ : gmap string value) in
  process_data Demo.plain_hook = "Method"
  /\ webhook_method Demo.plain_hook <> EmptyString
  /\ has_no_id (dict_get data "data")
  /\ _run_kafka_hook (Demo.env false) Demo.plain_hook Demo.approved Demo.world
     = (Demo.world,
        Raise (Exn "AttributeError" "object has no attribute 'id'")).
Proof.
  intros data.
  assert (Hmode : process_data Demo.plain_hook = "Method") by reflexivity.
  assert (Hmethod : webhook_method Demo.plain_hook <> EmptyString)
    by discriminate.
  assert (Hno : has_no_id (dict_get data "data")).
  { intros attrs k Heq. discriminate Heq. }
  split; [exact Hmode|]. split; [exact Hmethod|]. split; [exact Hno|].
  exact (data_without_id_is_not_sent (Demo.env false) Demo.plain_hook
           Demo.approved Demo.world Demo.plain_message data
           Hmode Hmethod eq_refl eq_refl Hno).
Defined.

(** Three names, the second unknown, on a topic whose broker is down:
    two calls, two audit records, one titled entry. *)
Lemma background_batch_accounts_for_every_name_witness :
  let w' := fst (run_kafka_hook (Demo.env false) "HOOK-DOWN" None
                   "Sales Order"
                   (DLList ["DOC-0001"; "DOC-0009"; "DOC-0002"]) Demo.world) in
  request (Demo.env false) = false
  /\ get_cached_doc (Demo.env false) "HOOK-DOWN" = Ok Demo.down_hook
  /\ length (kafka_calls w') + title_count (error_log w') = 3
  /\ length (request_log w') = length (kafka_calls w')
  /\ length (kafka_calls w') = 2.
Proof.
  intros w'.
  destruct (background_batch_accounts_for_every_name (Demo.env false)
              "HOOK-DOWN" Demo.down_hook "Sales Order"
              ["DOC-0001"; "DOC-0009"; "DOC-0002"] Demo.world
              eq_refl eq_refl) as [Hsum Hlogs].
  split; [reflexivity|]. split; [reflexivity|].
  split; [exact Hsum|]. split; [|reflexivity].
  rewrite <- (Nat.add_0_r (length (request_log w'))). exact Hlogs.
Defined.

(** The template of [HOOK-BROKEN] fails on the first name of a batch. *)
Lemma payload_failure_in_batch_witness :
  let e := Exn "JSONDecodeError" "Expecting value" in
  get_doc (Demo.env false) "Sales Order" "DOC-0001" = Ok Demo.approved
  /\ snd (_run_kafka_hook (Demo.env false) Demo.broken_hook Demo.approved
            Demo.world) = Raise e
  /\ run_kafka_hook (Demo.env true) "HOOK-BROKEN" None "Sales Order"
       (DLList ([] ++ "DOC-0001" :: ["DOC-0002"])) Demo.world
     = (Demo.world, Raise e)
  /\ run_kafka_hook (Demo.env false) "HOOK-BROKEN" None "Sales Order"
       (DLList ([] ++ "DOC-0001" :: ["DOC-0002"])) Demo.world
     = run_kafka_hook (Demo.env false) "HOOK-BROKEN" None "Sales Order"
         (DLList ["DOC-0002"])
         (set_error_log
            (error_log Demo.world ++ [LogTitle "Error running Kafka Hook"])
            Demo.world)
  /\ request_log
       (fst (run_kafka_hook (Demo.env false) "HOOK-BROKEN" None "Sales Order"
               (DLList ["DOC-0001"; "DOC-0002"]) Demo.world)) = [].
Proof.
  intros e.
  destruct (payload_failure_in_batch (Demo.env true) "HOOK-BROKEN"
              Demo.broken_hook "Sales Order" [] "DOC-0001" ["DOC-0002"]
              Demo.approved Demo.world Demo.world e
              eq_refl eq_refl eq_refl eq_refl) as [Hrequest _].
  destruct (payload_failure_in_batch (Demo.env false) "HOOK-BROKEN"
              Demo.broken_hook "Sales Order" [] "DOC-0001" ["DOC-0002"]
              Demo.approved Demo.world Demo.world e
              eq_refl eq_refl eq_refl eq_refl) as [_ Hbackground].
  split; [reflexivity|]. split; [reflexivity|].
  split; [exact (Hrequest eq_refl)|].
  split; [exact (Hbackground eq_refl)|reflexivity].
Defined.

(** An unknown hook, and a call with neither a document nor a list. *)
Lemma entry_point_arguments_witness :
  get_cached_doc (Demo.env false) "HOOK-NONE"
  = Raise (Exn "DoesNotExistError" "Kafka Hook HOOK-NONE not found")
  /\ run_kafka_hook (Demo.env false) "HOOK-NONE" (Some Demo.approved)
       "Sales Order" DLNone Demo.world
     = (Demo.world,
        Raise (Exn "DoesNotExistError" "Kafka Hook HOOK-NONE not found"))
  /\ run_kafka_hook (Demo.env false) "HOOK-TPL" None "Sales Order" DLNone
       Demo.world
     = (Demo.world, Raise (Exn "TypeError" "'NoneType' object is not iterable"))
  /\ run_kafka_hook (Demo.env false) "HOOK-TPL" None "Sales Order" (DLList [])
       Demo.world = (Demo.world, Ok tt).
Proof.
  pose (e := Exn "DoesNotExistError" "Kafka Hook HOOK-NONE not found").
  split; [reflexivity|].
  split.
  { exact (proj1 (entry_point_arguments (Demo.env false) "HOOK-NONE"
                    "Sales Order" Demo.world)
             e (Some Demo.approved) DLNone eq_refl). }
  destruct (proj2 (proj2 (proj2 (entry_point_arguments (Demo.env false)
                                   "HOOK-TPL" "Sales Order" Demo.world)))
              Demo.template_hook eq_refl) as [Hempty Hnone].
  split; [exact Hnone|exact Hempty].
Defined.

(** [on_update] on the approved document: the first row of the
    registry is queued, and the pass ends on the condition of
    [HOOK-BROKEN], which raises. *)
Lemma dispatch_soundness_witness :
  let w' := fst (run_webhooks (Demo.env true) Demo.approved "on_update"
                   Demo.world) in
  (exists fired,
     queue w' = (fun row => task_for Demo.approved (HookRow.name row)) <$> fired
     /\ Forall (fun row => HookRow.webhook_docevent row = "on_update"
                           /\ satisfied (Demo.env true) Demo.approved row) fired
     /\ forall reg, kafkahook (flags w') = Some reg ->
          sublist fired (default [] (reg !! "Sales Order")))
  /\ queue w' = [task_for Demo.approved "HOOK-TPL"]
  /\ snd (run_webhooks (Demo.env true) Demo.approved "on_update" Demo.world)
     = Raise (Exn "NameError" "name is not defined").
Proof.
  intros w'.
  destruct (dispatch_soundness (Demo.env true) Demo.approved "on_update"
              Demo.world) as (fired & Hq & Hall & Hsub & _).
  split; [|split; reflexivity].
  exists fired. split; [exact Hq|]. split; [exact Hall|exact Hsub].
Defined.

(** [on_change] on the approved document returns, and [HOOK-METHOD],
    whose condition holds, is recorded. *)
Lemma pass_completeness_witness :
  let w' := fst (run_webhooks (Demo.env true) Demo.approved "on_change"
                   Demo.world) in
  run_webhooks (Demo.env true) Demo.approved "on_change" Demo.world
  = (w', Ok tt)
  /\ suppressed Demo.world = false
  /\ ("on_change" ∈ event_list (Document.in_insert Demo.approved))
  /\ satisfied (Demo.env true) Demo.approved (row_of Demo.method_hook)
  /\ "HOOK-METHOD" ∈ executed_for w' "DOC-0001".
Proof.
  intros w'.
  assert (Hrun : run_webhooks (Demo.env true) Demo.approved "on_change"
                   Demo.world = (w', Ok tt)) by reflexivity.
  assert (Hev : "on_change" ∈ event_list (Document.in_insert Demo.approved))
    by (vm_compute; reflexivity).
  assert (Hsat : satisfied (Demo.env true) Demo.approved
                   (row_of Demo.method_hook)).
  { right. exists (VBool true). split; reflexivity. }
  destruct (pass_completeness (Demo.env true) Demo.approved "on_change"
              Demo.world w' Hrun eq_refl Hev) as (reg & Hreg & Hrows).
  split; [exact Hrun|]. split; [reflexivity|]. split; [exact Hev|].
  split; [exact Hsat|].
  apply (Hrows (row_of Demo.method_hook)); [|reflexivity|exact Hsat].
  assert (Hreg' : kafkahook (flags w')
                  = Some (foldl setdefault_append ∅
                            (row_of <$> List.filter enabled Demo.hooks)))
    by reflexivity.
  rewrite Hreg in Hreg'. injection Hreg' as ->.
  apply list_elem_of_In. vm_compute. right. left. reflexivity.
Defined.

(** During an import, the events that queue [HOOK-TPL] and
    [HOOK-METHOD] otherwise queue nothing. *)
Lemma suppressed_unit_queues_nothing_witness :
  let importing :=
    set_flags {| in_import := true; in_patch := false; in_install := false;
                 in_migrate := false; kafkahook_executed := None;
                 kafkahook := None |} Demo.world in
  let steps := [DocEvent Demo.approved "on_update";
                DocEvent Demo.approved "on_change"] in
  suppressed importing = true
  /\ queue (run_unit (Demo.env true) steps importing) = []
  /\ length (queue (run_unit (Demo.env true) steps Demo.world)) = 2.
Proof.
  intros importing steps.
  split; [reflexivity|]. split; [|reflexivity].
  exact (proj1 (suppressed_unit_queues_nothing (Demo.env true) steps
                  importing eq_refl)).
Defined.

(** After two events on [DOC-0001], each of the two hooks is queued
    once and recorded once. *)
Lemma recorded_names_mirror_queue_witness :
  let steps := [DocEvent Demo.approved "on_update";
                DocEvent Demo.approved "on_change";
                DocEvent Demo.approved "on_change"] in
  let w' := run_unit (Demo.env true) steps Demo.world in
  fresh_unit Demo.world
  /\ (forall h d, task_count h d (queue w') = name_count h (executed_for w' d))
  /\ executed_for w' "DOC-0001" = ["HOOK-TPL"; "HOOK-METHOD"].
Proof.
  intros steps w'.
  assert (Hfresh : fresh_unit Demo.world) by (split; reflexivity).
  split; [exact Hfresh|]. split; [|reflexivity].
  exact (recorded_names_mirror_queue (Demo.env true) steps Demo.world Hfresh).
Defined.

(** A unit in which [HOOK-TPL] is disabled and saved between two
    events: one query of the store, and the second event still queues
    [HOOK-TPL], from the registry read at the first. *)
Lemma registry_memoised_per_unit_witness :
  let disabled :=
    {| name := "HOOK-TPL"; enabled := false;
       webhook_doctype := "Sales Order"; webhook_docevent := "on_update";
       condition := EmptyString; process_data := "Template";
       webhook_method := EmptyString; webhook_json := Demo.id_template;
       kafka_settings := "Kafka Main"; kafka_topic := "orders" |} in
  let steps := [DocEvent Demo.approved "on_change";
                SaveDefinition disabled;
                DocEvent Demo.draft "on_update"] in
  let w' := run_unit (Demo.env true) steps Demo.world in
  kafkahook (flags Demo.world) = None
  /\ store_queries w' <= 1
  /\ (enabled <$> store w') = [false; true; true; true; false]
  /\ cache w' !! "kafkahook" = None
  /\ (task_kafka_hook_name <$> queue w') = ["HOOK-METHOD"; "HOOK-TPL"].
Proof.
  intros disabled steps w'.
  split; [reflexivity|].
  split.
  { exact (proj2 (registry_memoised_per_unit (Demo.env true) steps Demo.world)
             eq_refl). }
  repeat split; reflexivity.
Defined.

(** The registry of the five definitions: four rows under
    [Sales Order], nothing under [ToDo], whose definition is disabled. *)
Lemma registry_holds_enabled_definitions_witness :
  exists reg,
    snd (generate_kafkahook Demo.world) = Ok reg
    /\ (HookRow.name <$> default [] (reg !! "Sales Order"))
       = ["HOOK-TPL"; "HOOK-METHOD"; "HOOK-DOWN"; "HOOK-BROKEN"]
    /\ reg !! "ToDo" = None
    /\ forall rows, reg !! "Sales Order" = Some rows ->
         rows <> [] /\ row_of Demo.template_hook ∈ rows.
Proof.
  destruct (registry_holds_enabled_definitions Demo.world)
    as (reg & Hgen & Hrows & Hall).
  exists reg.
  assert (Hreg : reg = foldl setdefault_append ∅
                         (row_of <$> List.filter enabled Demo.hooks)).
  { apply (f_equal snd) in Hgen. simpl in Hgen.
    change (snd (generate_kafkahook Demo.world))
      with (Ok (foldl setdefault_append ∅
                  (row_of <$> List.filter enabled Demo.hooks))
            : result (gmap string (list HookRow.t))) in Hgen.
    by injection Hgen. }
  split; [by rewrite Hgen|].
  split; [rewrite Hreg; reflexivity|].
  split; [rewrite Hreg; reflexivity|].
  intros rows Hsales. destruct (Hrows "Sales Order" rows Hsales) as [Hne Hmem].
  split; [exact Hne|]. apply Hmem. exists Demo.template_hook.
  split; [|repeat split; reflexivity].
  apply list_elem_of_In. left. reflexivity.
Defined.

(** [HOOK-TPL] is accepted; [HOOK-TODO] on [on_submit] is not. *)
Lemma validate_accepts_iff_witness :
  docevent_ok (Demo.env true) Demo.template_hook
  /\ snd (validate (Demo.env true) Demo.template_hook Demo.world) = Ok tt
  /\ ~ docevent_ok (Demo.env true) (Demo.todo_hook "on_submit")
  /\ snd (validate (Demo.env true) (Demo.todo_hook "on_submit") Demo.world)
     <> Ok tt.
Proof.
  assert (Hok : docevent_ok (Demo.env true) Demo.template_hook).
  { right. left. reflexivity. }
  assert (Hnot : ~ docevent_ok (Demo.env true) (Demo.todo_hook "on_submit")).
  { intros [H|[H|H]]; [discriminate H|discriminate H|].
    apply H. apply list_elem_of_In. left. reflexivity. }
  split; [exact Hok|].
  split.
  { apply (proj2 (validate_accepts_iff (Demo.env true) Demo.template_hook
                    Demo.world)).
    split; [exact Hok|]. split; [|reflexivity].
    eexists. split; [reflexivity|]. left. reflexivity. }
  split; [exact Hnot|].
  intros Hacc.
  apply (proj2 (validate_accepts_iff (Demo.env true)
                  (Demo.todo_hook "on_submit") Demo.world)) in Hacc.
  apply Hnot. apply Hacc.
Defined.

(** The condition [status] of [HOOK-BROKEN] is not an expression the
    evaluator accepts. *)
Lemma invalid_condition_is_rejected_witness :
  docevent_ok (Demo.env true) Demo.broken_hook
  /\ condition Demo.broken_hook <> EmptyString
  /\ validate (Demo.env true) Demo.broken_hook Demo.world
     = (Demo.world, Raise (Exn "ValidationError" "name is not defined")).
Proof.
  assert (Hok : docevent_ok (Demo.env true) Demo.broken_hook).
  { right. left. reflexivity. }
  assert (Hc : condition Demo.broken_hook <> EmptyString) by discriminate.
  split; [exact Hok|]. split; [exact Hc|].
  exact (invalid_condition_is_rejected (Demo.env true) Demo.broken_hook
           Demo.world (Document.Make "Sales Order" EmptyString false [])
           (Exn "NameError" "name is not defined")
           Hok eq_refl Hc eq_refl).
Defined.

(** The task that [on_change] queues for the approved document, run
    by the worker: the method payload of that document is sent. *)
Lemma queued_task_runs_on_the_queued_document_witness :
  let t := task_for Demo.approved "HOOK-METHOD" in
  t ∈ queue (fst (run_webhooks (Demo.env true) Demo.approved "on_change"
                    Demo.world))
  /\ run_task (Demo.env false) t Demo.world
     = _run_kafka_hook (Demo.env false) Demo.method_hook Demo.approved
         Demo.world
  /\ (kc_key <$> kafka_calls (fst (run_task (Demo.env false) t Demo.world)))
     = [VStr "XYZ"].
Proof.
  intros t.
  assert (Hin : t ∈ queue (fst (run_webhooks (Demo.env false) Demo.approved
                                  "on_change" Demo.world))).
  { apply list_elem_of_In. left. reflexivity. }
  split; [apply list_elem_of_In; left; reflexivity|].
  split; [|reflexivity].
  destruct (queued_task_runs_on_the_queued_document (Demo.env false)
              Demo.approved "on_change" Demo.world t Hin)
    as [Hold|(_ & _ & Hrun)].
  - apply list_elem_of_In in Hold. destruct Hold.
  - exact (proj2 (Hrun Demo.world) Demo.method_hook eq_refl).
Defined.
